(** * F5-Spanish TTS API: a shallow embedding of [main.py]

    The service is a FastAPI application with four request handlers and one
    start-up hook.  Everything the handlers do is orchestration of external
    collaborators (the F5-TTS model, [soundfile], the scratch file system,
    the wall clock), so the embedding is a state-and-exception monad over an
    explicit [World]: the module globals, the scratch files, the log, and
    the ordered trace of external calls.  Whether an external call raises is
    decided by an oracle carried by the world, so that every exit path of
    the Python code is reachable in the model. *)

From Stdlib Require Import ZArith QArith Lia List String Ascii.
From Stdlib.Strings Require Import Byte.
From stdpp Require Import gmap strings list.

(** ** Python values *)

(** A Python [str] is a sequence of Unicode code points; [bytes] is a
    sequence of octets. *)
Abbreviation str := (list N).
Abbreviation bytes := (list byte).

Module PyStr.
Local Open Scope N_scope.

(** [bytes.decode('utf-8')]: the strict decoder of RFC 3629 (no overlong
    forms, no surrogates, nothing above U+10FFFF); [None] stands for
    [UnicodeDecodeError]. *)
Definition is_cont (b : N) : bool := (128 <=? b) && (b <=? 191).

Fixpoint utf8_decode (l : list N) : option str :=
  match l with
  | [] => Some []
  | b0 :: l1 =>
    if b0 <? 128 then cons b0 <$> utf8_decode l1
    else match l1 with
    | [] => None
    | b1 :: l2 =>
      if (194 <=? b0) && (b0 <=? 223) then
        (if is_cont b1
         then cons ((b0 - 192) * 64 + (b1 - 128)) <$> utf8_decode l2
         else None)
      else match l2 with
      | [] => None
      | b2 :: l3 =>
        if (224 <=? b0) && (b0 <=? 239) then
          (let cp := (b0 - 224) * 4096 + (b1 - 128) * 64 + (b2 - 128) in
           if is_cont b1 && is_cont b2 && (2048 <=? cp)
              && negb ((55296 <=? cp) && (cp <=? 57343))
           then cons cp <$> utf8_decode l3
           else None)
        else match l3 with
        | [] => None
        | b3 :: l4 =>
          if (240 <=? b0) && (b0 <=? 244) then
            (let cp := (b0 - 240) * 262144 + (b1 - 128) * 4096
                       + (b2 - 128) * 64 + (b3 - 128) in
             if is_cont b1 && is_cont b2 && is_cont b3
                && (65536 <=? cp) && (cp <=? 1114111)
             then cons cp <$> utf8_decode l4
             else None)
          else None
        end
      end
    end
  end.

Definition decode (b : bytes) : option str := utf8_decode (map Byte.to_N b).

(** A string literal of the source file (the file is UTF-8). *)
Definition lit (s : string) : str := default [] (decode (list_byte_of_string s)).

(** [str.isspace] on one character: the table [_PyUnicode_IsWhitespace] of
    CPython (general category Zs, or bidirectional class WS, B or S). *)
Definition isspace (c : N) : bool :=
  ((9 <=? c) && (c <=? 13)) || ((28 <=? c) && (c <=? 32))
  || (c =? 133) || (c =? 160) || (c =? 5760)
  || ((8192 <=? c) && (c <=? 8202))
  || (c =? 8232) || (c =? 8233) || (c =? 8239) || (c =? 8287) || (c =? 12288).

Fixpoint lstrip (s : str) : str :=
  match s with
  | [] => []
  | c :: s' => if isspace c then lstrip s' else s
  end.

Definition rstrip (s : str) : str := rev (lstrip (rev s)).

(** [s.strip()] with no argument. *)
Definition strip (s : str) : str := rstrip (lstrip s).

(** [bool(s)]: a string is falsy exactly when it is empty. *)
Definition truthy (s : str) : bool :=
  match s with [] => false | _ :: _ => true end.

(** [len(s)]. *)
Definition len (s : str) : Z := Z.of_nat (length s).

(** [s[:n]]. *)
Definition prefix (n : nat) (s : str) : str := take n s.

(** What the specification calls blank: empty, or whitespace only. *)
Definition blank (s : str) : bool := forallb isspace s.

End PyStr.

(** ** [base64.b64encode]: RFC 4648, standard alphabet, padded *)

Module Base64.
Local Open Scope N_scope.

Definition alphabet : list byte :=
  list_byte_of_string
    "ABCDEFGHIJKLMNOPQRSTUVWXYZabcdefghijklmnopqrstuvwxyz0123456789+/".

Definition pad : byte := "="%byte.

Definition sextet (n : N) (shift : N) : byte :=
  nth (N.to_nat (N.land (N.shiftr n shift) 63)) alphabet pad.

Fixpoint b64encode (l : bytes) : bytes :=
  match l with
  | [] => []
  | [a] =>
    let n := N.shiftl (Byte.to_N a) 16 in
    [sextet n 18; sextet n 12; pad; pad]
  | [a; b] =>
    let n := N.lor (N.shiftl (Byte.to_N a) 16) (N.shiftl (Byte.to_N b) 8) in
    [sextet n 18; sextet n 12; sextet n 6; pad]
  | a :: b :: c :: rest =>
    let n := N.lor (N.lor (N.shiftl (Byte.to_N a) 16) (N.shiftl (Byte.to_N b) 8))
                   (Byte.to_N c) in
    sextet n 18 :: sextet n 12 :: sextet n 6 :: sextet n 0 :: b64encode rest
  end.

End Base64.


(** ** Exceptions *)

(** The exceptions that the libraries around the service raise.  The source
    tells two classes apart: [ImportError] (line 64) and every other subclass
    of [Exception] (lines 45, 77, 197, 229).  Signals that are not
    [Exception]s (keyboard interrupt, interpreter exit, the cancellation of
    a request at its [await]) are outside the model: an exception below is
    always one that an [except Exception] clause catches. *)
Inductive PyError :=
| ImportError (msg : str)
| OtherError (msg : str).

Definition is_ImportError (e : PyError) : bool :=
  match e with ImportError _ => true | OtherError _ => false end.

(** [str(e)]. *)
Definition exc_str (e : PyError) : str :=
  match e with ImportError m | OtherError m => m end.

(** [fastapi.HTTPException(status_code=..., detail=...)]. *)
Record HTTPException := { status_code : Z; detail : str }.

(** ** The state-and-exception monad *)

Inductive Result (E A : Type) :=
| Ret (a : A)
| Raise (e : E).
Arguments Ret {E A} a.
Arguments Raise {E A} e.

(** A Python block run on a state of type [S]: it ends normally with a value
    or raises, and in both cases leaves a state behind. *)
Definition M (S E A : Type) : Type := S -> Result E A * S.

Definition ret {S E A} (a : A) : M S E A := fun s => (Ret a, s).

Definition raise {S E A} (e : E) : M S E A := fun s => (Raise e, s).

Definition bind {S E A B} (m : M S E A) (k : A -> M S E B) : M S E B :=
  fun s =>
    match m s with
    | (Ret a, s') => k a s'
    | (Raise e, s') => (Raise e, s')
    end.

Declare Scope py_scope.
Delimit Scope py_scope with py.
Notation "x <- m ;; k" := (bind m (fun x => k))
  (at level 100, m at next level, k at level 200, right associativity) : py_scope.
Notation "m ;; k" := (bind m (fun _ => k))
  (at level 100, k at level 200, right associativity) : py_scope.
Local Open Scope py_scope.

Definition get {S E} : M S E S := fun s => (Ret s, s).

Definition modify {S E} (f : S -> S) : M S E unit := fun s => (Ret tt, f s).

(** [try: body except Exception as e: handler(e)]. *)
Definition try_except {S E E' A} (body : M S E A) (handler : E -> M S E' A)
  : M S E' A :=
  fun s =>
    match body s with
    | (Ret a, s') => (Ret a, s')
    | (Raise e, s') => handler e s'
    end.

(** [try: body except C: handler]: only the exceptions of class [C] are
    caught, the others propagate. *)
Definition try_except_if {S E A} (catches : E -> bool) (body : M S E A)
    (handler : E -> M S E A) : M S E A :=
  try_except body (fun e => if catches e then handler e else raise e).

(** [try: body finally: final].  The final block runs on every exit of the
    body; an exception of the final block replaces the outcome of the body. *)
Definition try_finally {S E A} (body : M S E A) (final : M S E unit)
  : M S E A :=
  fun s =>
    match body s with
    | (r, s') =>
      match final s' with
      | (Ret _, s'') => (r, s'')
      | (Raise e, s'') => (Raise e, s'')
      end
    end.

(** *** Function frames

    The clean-up block of [synthesize_speech] asks ['temp_output' in
    locals()], so the local variables of that call are part of the state:
    a frame is the world together with the locals. *)
Definition global {W L E A} (m : M W E A) : M (W * L) E A :=
  fun s =>
    match m (fst s) with
    | (r, w') => (r, (w', snd s))
    end.

Definition locals {W L E} : M (W * L) E L := fun s => (Ret (snd s), s).

Definition set_locals {W L E} (l : L) : M (W * L) E unit :=
  fun s => (Ret tt, (fst s, l)).

Definition in_frame {W L E A} (init : L) (m : M (W * L) E A) : M W E A :=
  fun w =>
    match m (w, init) with
    | (r, s') => (r, fst s')
    end.

(** ** The world *)

(** [torch.device("cpu")]; [str(device)] is its type name. *)
Record torch_device := { device_type : str }.

(** What [model.infer] hands back: a [torch.Tensor], or already an array. *)
Inductive AudioData :=
| Tensor (samples : list Q)
| NdArray (samples : list Q).

(** Lines 158-161: a tensor is converted with [.cpu().numpy()], anything
    else is taken as it is. *)
Definition numpy (a : AudioData) : list Q :=
  match a with Tensor s => s | NdArray s => s end.

(** The external model.  Its only contract with the service: from the
    reference audio, the reference transcript, the target text and the two
    generation options, produce a waveform. *)
Record F5TTS := {
  infer : bytes -> str -> str -> Q -> bool -> AudioData
}.

Abbreviation path := string.

(** Calls that leave the process, in the order the source makes them. *)
Inductive Event :=
| EvTime (t : Q)                      (* time.time() *)
| EvImportF5TTS                       (* from f5_tts.api import F5TTS *)
| EvPipInstall                        (* subprocess.check_call([... pip install ...]) *)
| EvConstruct (d : torch_device)      (* F5TTS(model_type=..., device=device) *)
| EvUploadRead                        (* await ref_audio.read() *)
| EvTmpCreate (p : path)              (* tempfile.NamedTemporaryFile(delete=False, ...) *)
| EvFileWrite (p : path)              (* temp_audio.write(content) *)
| EvInfer (p : path) (ref_text gen_text : str) (speed : Q) (remove_silence : bool)
| EvImportSoundfile                   (* import soundfile as sf *)
| EvSfWrite (p : path) (samplerate : Z)   (* sf.write(path, data, samplerate) *)
| EvFileRead (p : path)               (* open(path, "rb").read() *)
| EvUnlink (p : path).                (* os.unlink(path) *)

Inductive Level := INFO | ERROR.

(** A log message: the pieces of the f-string, numbers left unformatted. *)
Inductive LogPart :=
| Text (s : string)
| Str (s : str)
| Secs (t : Q).

Record LogRecord := { level : Level; parts : list LogPart }.

(** What the handlers cannot decide: the readings of the wall clock, whether
    an external call raises (given the calls made so far), and the object
    that the model constructor returns. *)
Record Env := {
  clock : nat -> Q;
  faults : list Event -> Event -> option PyError;
  F5TTS_new : torch_device -> F5TTS
}.

Record World := {
  env : Env;
  (* the module globals of lines 32-34 *)
  model : option F5TTS;
  vocoder : option unit;
  device : option torch_device;
  (* the file system, the clock readings used, the calls made, the log *)
  fs : gmap path bytes;
  ticks : nat;
  trace : list Event;
  log : list LogRecord
}.

Definition set_model (m : option F5TTS) (w : World) : World :=
  {| env := env w; model := m; vocoder := vocoder w; device := device w;
     fs := fs w; ticks := ticks w; trace := trace w; log := log w |}.

Definition set_device (d : option torch_device) (w : World) : World :=
  {| env := env w; model := model w; vocoder := vocoder w; device := d;
     fs := fs w; ticks := ticks w; trace := trace w; log := log w |}.

Definition set_fs (f : gmap path bytes) (w : World) : World :=
  {| env := env w; model := model w; vocoder := vocoder w; device := device w;
     fs := f; ticks := ticks w; trace := trace w; log := log w |}.

Definition set_ticks (n : nat) (w : World) : World :=
  {| env := env w; model := model w; vocoder := vocoder w; device := device w;
     fs := fs w; ticks := n; trace := trace w; log := log w |}.

Definition set_trace (t : list Event) (w : World) : World :=
  {| env := env w; model := model w; vocoder := vocoder w; device := device w;
     fs := fs w; ticks := ticks w; trace := t; log := log w |}.

Definition set_log (l : list LogRecord) (w : World) : World :=
  {| env := env w; model := model w; vocoder := vocoder w; device := device w;
     fs := fs w; ticks := ticks w; trace := trace w; log := l |}.

(** *** Primitive operations *)

Definition logger_info {E} (msg : list LogPart) : M World E unit :=
  modify (fun w => set_log (log w ++ [{| level := INFO; parts := msg |}]) w).

Definition logger_error {E} (msg : list LogPart) : M World E unit :=
  modify (fun w => set_log (log w ++ [{| level := ERROR; parts := msg |}]) w).

(** [time.time()]: the next reading of the wall clock. *)
Definition time_time {E} : M World E Q :=
  fun w =>
    let t := clock (env w) (ticks w) in
    (Ret t, set_trace (trace w ++ [EvTime t]) (set_ticks (S (ticks w)) w)).

(** An external call: it is recorded, and the environment decides whether it
    raises.  What the call does outside the process is not followed: the
    files that [pip] and the model constructor leave on disk (lines 40 and
    70) are not in [fs], which holds the files that the handlers name. *)
Definition call (ev : Event) : M World PyError unit :=
  fun w =>
    let w' := set_trace (trace w ++ [ev]) w in
    match faults (env w) (trace w) ev with
    | Some e => (Raise e, w')
    | None => (Ret tt, w')
    end.

Definition FileNotFoundError (p : path) : PyError :=
  OtherError (PyStr.lit "[Errno 2] No such file or directory").

(** [tempfile.NamedTemporaryFile(delete=False, suffix=".wav")]: a new, empty
    file under a name that no existing file has. *)
Definition NamedTemporaryFile : M World PyError path :=
  w <- get ;;
  let p := fresh (dom (fs w)) in
  call (EvTmpCreate p) ;;
  modify (fun w => set_fs (<[p := []]> (fs w)) w) ;;
  ret p.

(** [f.write(content)] on a freshly created file, flushed when the [with]
    block closes it. *)
Definition file_write (p : path) (content : bytes) : M World PyError unit :=
  call (EvFileWrite p) ;;
  modify (fun w => set_fs (<[p := content]> (fs w)) w).

(** [open(p, "rb").read()]. *)
Definition file_read (p : path) : M World PyError bytes :=
  call (EvFileRead p) ;;
  w <- get ;;
  match fs w !! p with
  | Some b => ret b
  | None => raise (FileNotFoundError p)
  end.

(** [os.unlink(p)]. *)
Definition os_unlink (p : path) : M World PyError unit :=
  call (EvUnlink p) ;;
  w <- get ;;
  match fs w !! p with
  | Some _ => modify (fun w => set_fs (delete p (fs w)) w)
  | None => raise (FileNotFoundError p)
  end.

(** [await ref_audio.read()]. *)
Record UploadFile := { upload_content : bytes }.

Definition upload_read (f : UploadFile) : M World PyError bytes :=
  call EvUploadRead ;;
  ret (upload_content f).

(** [model.infer(ref_audio=p, ref_text=..., gen_text=..., speed=...,
    remove_silence=...)]: the global [model] is read again at the call; the
    model reads the reference audio from the scratch file. *)
Definition model_infer (p : path) (ref_text gen_text : str) (speed : Q)
    (remove_silence : bool) : M World PyError AudioData :=
  w <- get ;;
  match model w with
  | None =>
    raise (OtherError (PyStr.lit "'NoneType' object has no attribute 'infer'"))
  | Some m =>
    call (EvInfer p ref_text gen_text speed remove_silence) ;;
    w <- get ;;
    match fs w !! p with
    | Some content => ret (infer m content ref_text gen_text speed remove_silence)
    | None => raise (FileNotFoundError p)
    end
  end.

(** [base64.b64encode(b).decode('utf-8')]. *)
Definition b64_text (b : bytes) : M World PyError str :=
  match PyStr.decode (Base64.b64encode b) with
  | Some s => ret s
  | None => raise (OtherError (PyStr.lit "'utf-8' codec can't decode"))
  end.

(** ** Requests and responses *)

(** The multipart form of [POST /synthesize]. *)
Record SynthRequest := {
  text : str;
  ref_audio : UploadFile;
  ref_text : str;
  speed : Q;
  remove_silence : bool
}.

(** The JSON bodies, one record per dictionary literal of the source. *)
Module RootR.
Record t := { message : str; model_loaded : bool; device : str }.
End RootR.

Module HealthR.
Record t := { status : str; model_ready : bool; timestamp : Q }.
End HealthR.

Module SynthR.
Record t := {
  success : bool;
  audio_base64 : str;
  format : str;
  sample_rate : Z;
  processing_time : Q;
  text_length : Z;
  ref_text : str
}.
End SynthR.

Module TestR.
Record t := {
  success : bool;
  message : str;
  processing_time : Q;
  test_text : str;
  model_ready : bool
}.
End TestR.

(** The locals of [synthesize_speech] that its clean-up block inspects. *)
Record SynthLocals := { temp_output : option path }.

Definition is_None {A} (o : option A) : bool :=
  match o with None => true | Some _ => false end.

Section Service.

(** [soundfile]'s encoder: the bytes of the WAV container that
    [sf.write(path, data, samplerate)] leaves in the file. *)
Variable wav_encode : list Q -> Z -> bytes.

Definition sf_write (p : path) (data : list Q) (samplerate : Z)
  : M World PyError unit :=
  call (EvSfWrite p samplerate) ;;
  modify (fun w => set_fs (<[p := wav_encode data samplerate]> (fs w)) w).

(** *** Model loading (lines 36-89) *)

Definition install_f5_tts : M World PyError unit :=
  try_except
    (logger_info [Text "Instalando F5-TTS..."] ;;
     call EvPipInstall ;;
     logger_info [Text "F5-TTS instalado correctamente"])
    (fun e =>
       logger_error [Text "Error instalando F5-TTS: "; Str (exc_str e)] ;;
       raise e).

Definition cpu : torch_device := {| device_type := PyStr.lit "cpu" |}.

Definition load_model : M World PyError bool :=
  try_except
    (logger_info [Text "Cargando modelo F5-Spanish..."] ;;
     start_time <- time_time ;;
     modify (set_device (Some cpu)) ;;
     logger_info [Text "Usando dispositivo: "; Str (device_type cpu)] ;;
     try_except_if is_ImportError
       (call EvImportF5TTS)
       (fun _ =>
          logger_info [Text "F5-TTS no encontrado, instalando..."] ;;
          install_f5_tts ;;
          call EvImportF5TTS) ;;
     call (EvConstruct cpu) ;;
     modify (fun w => set_model (Some (F5TTS_new (env w) cpu)) w) ;;
     now <- time_time ;;
     let load_time := (now - start_time)%Q in
     logger_info [Text "Modelo cargado en "; Secs load_time; Text " segundos"] ;;
     ret true)
    (fun e =>
       logger_error [Text "Error cargando modelo: "; Str (exc_str e)] ;;
       ret false).

Definition startup_event : M World PyError unit :=
  logger_info [Text "Iniciando API F5-Spanish TTS..."] ;;
  success <- load_model ;;
  if negb success
  then logger_error [Text "No se pudo cargar el modelo"]
  else logger_info [Text "API lista para usar"].

(** *** Status handlers (lines 91-107) *)

Definition root : M World HTTPException RootR.t :=
  w <- get ;;
  ret {| RootR.message := PyStr.lit "F5-Spanish TTS API funcionando";
         RootR.model_loaded := negb (is_None (model w));
         RootR.device :=
           match device w with
           | Some d => device_type d
           | None => PyStr.lit "No disponible"
           end |}.

Definition health_check : M World HTTPException HealthR.t :=
  w <- get ;;
  now <- time_time ;;
  ret {| HealthR.status := PyStr.lit "healthy";
         HealthR.model_ready := negb (is_None (model w));
         HealthR.timestamp := now |}.

(** *** Synthesis (lines 109-199) *)

(** The [finally] block, lines 188-195. *)
Definition synthesize_cleanup (temp_audio_path : path)
  : M (World * SynthLocals) PyError unit :=
  try_except
    (global (os_unlink temp_audio_path) ;;
     l <- locals ;;
     match temp_output l with
     | Some p => global (os_unlink p)
     | None => ret tt
     end)
    (fun _ => ret tt).

(** The inner [try] block, lines 139-186. *)
Definition synthesize_body (rq : SynthRequest) (start_time : Q)
    (temp_audio_path : path) : M (World * SynthLocals) PyError SynthR.t :=
  global (logger_info [Text "Iniciando síntesis..."]) ;;
  audio_data <- global (model_infer temp_audio_path (ref_text rq) (text rq)
                                    (speed rq) (remove_silence rq)) ;;
  let audio_numpy := numpy audio_data in
  audio_bytes <-
    (p <- global NamedTemporaryFile ;;
     set_locals {| temp_output := Some p |} ;;
     global (call EvImportSoundfile) ;;
     global (sf_write p audio_numpy 24000) ;;
     global (file_read p)) ;;
  audio_base64 <- global (b64_text audio_bytes) ;;
  now <- global time_time ;;
  let processing_time := (now - start_time)%Q in
  global (logger_info [Text "Síntesis completada en "; Secs processing_time;
                       Text " segundos"]) ;;
  ret {| SynthR.success := true;
         SynthR.audio_base64 := audio_base64;
         SynthR.format := PyStr.lit "wav";
         SynthR.sample_rate := 24000;
         SynthR.processing_time := processing_time;
         SynthR.text_length := PyStr.len (text rq);
         SynthR.ref_text := ref_text rq |}.

(** The inner [try ... finally] statement, lines 139-195, run in the frame
    of the call; [temp_output] is not bound yet when it starts. *)
Definition synthesize_guarded (rq : SynthRequest) (start_time : Q)
    (temp_audio_path : path) : M World PyError SynthR.t :=
  in_frame {| temp_output := None |}
    (try_finally (synthesize_body rq start_time temp_audio_path)
                 (synthesize_cleanup temp_audio_path)).

(** The outer [try] block, lines 129-195. *)
Definition synthesize_try (rq : SynthRequest) : M World PyError SynthR.t :=
  logger_info [Text "Procesando síntesis: '"; Str (PyStr.prefix 50 (text rq));
               Text "...'"] ;;
  start_time <- time_time ;;
  temp_audio_path <-
    (p <- NamedTemporaryFile ;;
     content <- upload_read (ref_audio rq) ;;
     file_write p content ;;
     ret p) ;;
  synthesize_guarded rq start_time temp_audio_path.

Definition missing (s : str) : bool :=
  negb (PyStr.truthy s) || negb (PyStr.truthy (PyStr.strip s)).

Definition synthesize_speech (rq : SynthRequest)
  : M World HTTPException SynthR.t :=
  w <- get ;;
  (if is_None (model w)
   then raise {| status_code := 503; detail := PyStr.lit "Modelo no cargado" |}
   else ret tt) ;;
  (if missing (text rq)
   then raise {| status_code := 400; detail := PyStr.lit "Texto requerido" |}
   else ret tt) ;;
  (if missing (ref_text rq)
   then raise {| status_code := 400;
                 detail := PyStr.lit "Transcripción del audio de referencia requerida" |}
   else ret tt) ;;
  try_except (synthesize_try rq)
    (fun e =>
       logger_error [Text "Error en síntesis: "; Str (exc_str e)] ;;
       raise {| status_code := 500;
                detail := PyStr.lit "Error en síntesis: " ++ exc_str e |}).

(** *** The readiness stub (lines 201-231) *)

Definition test_synthesis : M World HTTPException TestR.t :=
  w <- get ;;
  (if is_None (model w)
   then raise {| status_code := 503; detail := PyStr.lit "Modelo no cargado" |}
   else ret tt) ;;
  try_except (E := PyError)
    (let test_text := PyStr.lit "Hola, esta es una prueba de síntesis de voz." in
     logger_info [Text "Ejecutando prueba de síntesis..."] ;;
     start_time <- time_time ;;
     now <- time_time ;;
     let processing_time := (now - start_time)%Q in
     ret {| TestR.success := true;
            TestR.message := PyStr.lit "Modelo funcionando correctamente";
            TestR.processing_time := processing_time;
            TestR.test_text := test_text;
            TestR.model_ready := true |})
    (fun e =>
       logger_error [Text "Error en prueba: "; Str (exc_str e)] ;;
       raise {| status_code := 500;
                detail := PyStr.lit "Error en prueba: " ++ exc_str e |}).

(** *** The application: routes, and a run of requests *)

Inductive Request :=
| GET_root
| GET_health
| POST_synthesize (rq : SynthRequest)
| POST_test_synthesis.

Inductive Response :=
| RootBody (r : RootR.t)
| HealthBody (r : HealthR.t)
| SynthBody (r : SynthR.t)
| TestBody (r : TestR.t).

Definition route (r : Request) : M World HTTPException Response :=
  match r with
  | GET_root => b <- root ;; ret (RootBody b)
  | GET_health => b <- health_check ;; ret (HealthBody b)
  | POST_synthesize rq => b <- synthesize_speech rq ;; ret (SynthBody b)
  | POST_test_synthesis => b <- test_synthesis ;; ret (TestBody b)
  end.

(** The world after a sequence of requests, served one after the other. *)
Definition serve (rs : list Request) (w : World) : World :=
  fold_left (fun w r => snd (route r w)) rs w.

End Service.

(** *** Observations on traces *)

Definition is_install (ev : Event) : bool :=
  match ev with EvPipInstall => true | _ => false end.

Definition is_import (ev : Event) : bool :=
  match ev with EvImportF5TTS => true | _ => false end.

Definition is_construct (ev : Event) : bool :=
  match ev with EvConstruct _ => true | _ => false end.

Definition is_infer (ev : Event) : bool :=
  match ev with EvInfer _ _ _ _ _ => true | _ => false end.

Definition is_unlink (ev : Event) : bool :=
  match ev with EvUnlink _ => true | _ => false end.

(** Storing the uploaded reference audio: reading the upload and writing it
    to the scratch file (lines 135-136). *)
Definition is_staging (ev : Event) : bool :=
  match ev with EvUploadRead | EvFileWrite _ => true | _ => false end.

(** Calls that touch the file system. *)
Definition is_file_op (ev : Event) : bool :=
  match ev with
  | EvTmpCreate _ | EvFileWrite _ | EvSfWrite _ _ | EvFileRead _ | EvUnlink _ => true
  | _ => false
  end.

Definition count (f : Event -> bool) (l : list Event) : nat :=
  length (List.filter f l).

(** In environment [e], no call of the given kind ever raises. *)
Definition never_fails (e : Env) (kind : Event -> bool) : Prop :=
  forall tr ev, kind ev = true -> faults e tr ev = None.

(** The calls made between two worlds of one run. *)
Definition new_events (w w' : World) : list Event :=
  drop (length (trace w)) (trace w').

(** The answers of the environment to the first calls of [load_model]
    started in [w]: the import of line 63, and the installation of line 40
    that follows a failed import. *)
Definition first_import_outcome (w : World) : option PyError :=
  faults (env w) (trace w ++ [EvTime (clock (env w) (ticks w))]) EvImportF5TTS.

Definition install_outcome (w : World) : option PyError :=
  faults (env w)
    (trace w ++ [EvTime (clock (env w) (ticks w)); EvImportF5TTS]) EvPipInstall.

(** The globals that lines 32-34 declare. *)
Definition same_globals (w w' : World) : Prop :=
  model w' = model w /\ vocoder w' = vocoder w /\ device w' = device w.

(** A block preserves a relation between the state before and after it. *)
Definition preserves {S E A} (R : S -> S -> Prop) (m : M S E A) : Prop :=
  forall s, R s (snd (m s)).

(** The waveform that the model returns for a request. *)
Definition waveform (m : F5TTS) (rq : SynthRequest) : AudioData :=
  infer m (upload_content (ref_audio rq)) (ref_text rq) (text rq) (speed rq)
        (remove_silence rq).

(** The calls of a synthesis that succeeds, from the first clock reading
    [t0] to the second [t1]; [p] and [q] are the two scratch files. *)
Definition synthesis_calls (rq : SynthRequest) (p q : path) (t0 t1 : Q)
  : list Event :=
  [EvTime t0; EvTmpCreate p; EvUploadRead; EvFileWrite p;
   EvInfer p (ref_text rq) (text rq) (speed rq) (remove_silence rq);
   EvTmpCreate q; EvImportSoundfile; EvSfWrite q 24000; EvFileRead q;
   EvTime t1].

(** The process at start (lines 32-34): the three globals are [None]; the
    environment and the files on disk are whatever they are. *)
Definition boot (e : Env) (disk : gmap path bytes) : World :=
  {| env := e; model := None; vocoder := None; device := None;
     fs := disk; ticks := 0; trace := []; log := [] |}.

(** A relation on worlds, seen on the frames of a call. *)
Definition on_world {L} (R : World -> World -> Prop) (s s' : World * L) : Prop :=
  R (fst s) (fst s').

(** ** Concrete environments, worlds and requests *)

Module Demo.

(** A stand-in encoder: a tag, then one octet per sample. *)
Definition wav_encode (samples : list Q) (samplerate : Z) : bytes :=
  list_byte_of_string "RIFFWAVE"
  ++ map (fun q => if Qle_bool 0 q then "127"%byte else "128"%byte) samples.

(** A stand-in model: one sample per character of the target text. *)
Definition f5 : F5TTS :=
  {| infer := fun _ _ gen_text _ _ => Tensor (map (fun _ => 1 # 2) gen_text) |}.

Definition seconds (n : nat) : Q := inject_Z (Z.of_nat n).

(** Nothing fails, the clock advances one second per reading. *)
Definition env_ok : Env :=
  {| clock := seconds; faults := fun _ _ => None; F5TTS_new := fun _ => f5 |}.

(** Every [os.unlink] is refused. *)
Definition env_unlink_denied : Env :=
  {| clock := seconds;
     faults := fun _ ev =>
       if is_unlink ev
       then Some (OtherError (PyStr.lit "[Errno 13] Permission denied"))
       else None;
     F5TTS_new := fun _ => f5 |}.

(** The first deletion goes through, every later one is refused. *)
Definition env_output_locked : Env :=
  {| clock := seconds;
     faults := fun tr ev =>
       if is_unlink ev && existsb is_unlink tr
       then Some (OtherError (PyStr.lit "[Errno 13] Permission denied"))
       else None;
     F5TTS_new := fun _ => f5 |}.

(** The model raises on every inference. *)
Definition env_infer_fails : Env :=
  {| clock := seconds;
     faults := fun _ ev =>
       if is_infer ev
       then Some (OtherError (PyStr.lit "CUDA out of memory"))
       else None;
     F5TTS_new := fun _ => f5 |}.

(** The upload cannot be read. *)
Definition env_upload_fails : Env :=
  {| clock := seconds;
     faults := fun _ ev =>
       match ev with
       | EvUploadRead => Some (OtherError (PyStr.lit "client disconnected"))
       | _ => None
       end;
     F5TTS_new := fun _ => f5 |}.

(** The wall clock is set back between two readings. *)
Definition env_clock_back : Env :=
  {| clock := fun n => (100 - seconds n)%Q;
     faults := fun _ _ => None;
     F5TTS_new := fun _ => f5 |}.

(** The package is missing and cannot be installed. *)
Definition env_no_package : Env :=
  {| clock := seconds;
     faults := fun _ ev =>
       match ev with
       | EvImportF5TTS => Some (ImportError (PyStr.lit "No module named 'f5_tts'"))
       | EvPipInstall => Some (OtherError (PyStr.lit "returned non-zero exit status 1"))
       | _ => None
       end;
     F5TTS_new := fun _ => f5 |}.

(** The package is missing until it has been installed. *)
Definition env_installable : Env :=
  {| clock := seconds;
     faults := fun tr ev =>
       match ev with
       | EvImportF5TTS =>
         if existsb is_install tr then None
         else Some (ImportError (PyStr.lit "No module named 'f5_tts'"))
       | _ => None
       end;
     F5TTS_new := fun _ => f5 |}.

(** The package is there, the constructor raises. *)
Definition env_no_weights : Env :=
  {| clock := seconds;
     faults := fun _ ev =>
       if is_construct ev
       then Some (OtherError (PyStr.lit "checkpoint not found"))
       else None;
     F5TTS_new := fun _ => f5 |}.

(** The process after a successful load. *)
Definition ready (e : Env) : World :=
  set_model (Some f5) (set_device (Some cpu) (boot e ∅)).

Definition hola : SynthRequest :=
  {| text := PyStr.lit "Hola mundo";
     ref_audio := {| upload_content := list_byte_of_string "RIFF$" |};
     ref_text := PyStr.lit "prueba";
     speed := 1;
     remove_silence := true |}.

(** A text of white space only: space, tab, no-break space, line feed. *)
Definition no_text : SynthRequest :=
  {| text := [32; 9; 160; 10]%N;
     ref_audio := {| upload_content := list_byte_of_string "RIFF$" |};
     ref_text := PyStr.lit "prueba";
     speed := 1;
     remove_silence := true |}.

(** The response to [hola] when the two clock readings differ by [dt]. *)
Definition hola_response (dt : Q) : SynthR.t :=
  {| SynthR.success := true;
     SynthR.audio_base64 := PyStr.lit "UklGRldBVkV/f39/f39/f39/";
     SynthR.format := PyStr.lit "wav";
     SynthR.sample_rate := 24000;
     SynthR.processing_time := dt;
     SynthR.text_length := 10;
     SynthR.ref_text := PyStr.lit "prueba" |}.

End Demo.

(** ** Further observations *)

(** The status line of the HTTP answer: 200 for a returned body, the status
    of the [HTTPException] otherwise. *)
Definition http_status {A} (r : Result HTTPException A) : Z :=
  match r with Ret _ => 200 | Raise x => status_code x end.

Definition is_tmp_create (ev : Event) : bool :=
  match ev with EvTmpCreate _ => true | _ => false end.

Definition is_upload_read (ev : Event) : bool :=
  match ev with EvUploadRead => true | _ => false end.

(** The file that a call names, if it names one. *)
Definition event_path (ev : Event) : option path :=
  match ev with
  | EvTmpCreate p | EvFileWrite p | EvInfer p _ _ _ _ | EvSfWrite p _
  | EvFileRead p | EvUnlink p => Some p
  | _ => None
  end.

(** A call that names no file, or one of [p] and [q]. *)
Definition names_only (p q : path) (ev : Event) : Prop :=
  forall x, event_path ev = Some x -> x = p \/ x = q.

(** In environment [e], every call of the given kind raises [err]. *)
Definition always_raises (e : Env) (kind : Event -> bool) (err : PyError) : Prop :=
  forall tr ev, kind ev = true -> faults e tr ev = Some err.

(** The same world in another environment. *)
Definition set_env (e : Env) (w : World) : World :=
  {| env := e; model := model w; vocoder := vocoder w; device := device w;
     fs := fs w; ticks := ticks w; trace := trace w; log := log w |}.

(** Two environments with the same clock and the same answers to every call
    but [os.unlink]. *)
Definition same_but_unlink (e e' : Env) : Prop :=
  (forall n, clock e' n = clock e n) /\
  (forall tr ev, is_unlink ev = false -> faults e' tr ev = faults e tr ev).

(** The calls of [load_model] that can raise. *)
Definition is_load_step (ev : Event) : bool :=
  is_import ev || is_install ev || is_construct ev.

(** In the run from [w] to [w'], the call [ev] came after the calls [pre]
    and before the calls [post], and the environment answered it with the
    exception [err]. *)
Definition raised_at (w w' : World) (pre : list Event) (ev : Event)
    (post : list Event) (err : PyError) : Prop :=
  new_events w w' = pre ++ ev :: post /\
  faults (env w) (trace w ++ pre) ev = Some err.

(** The log records that the handlers write on failure. *)
Definition load_error_record (e : PyError) : LogRecord :=
  {| level := ERROR; parts := [Text "Error cargando modelo: "; Str (exc_str e)] |}.

Definition synthesis_error_record (e : PyError) : LogRecord :=
  {| level := ERROR; parts := [Text "Error en síntesis: "; Str (exc_str e)] |}.

(** The last record that [startup_event] writes. *)
Definition startup_ok_record : LogRecord :=
  {| level := INFO; parts := [Text "API lista para usar"] |}.

Definition startup_failed_record : LogRecord :=
  {| level := ERROR; parts := [Text "No se pudo cargar el modelo"] |}.

(** * Proofs *)

(** ** Facts about Python strings *)

Section StringFacts.
Local Open Scope N_scope.

Lemma lstrip_nil_iff s : PyStr.lstrip s = [] <-> PyStr.blank s = true.
Proof.
  induction s as [|c s IH]; simpl; [tauto|].
  destruct (PyStr.isspace c); simpl; [exact IH|].
  split; discriminate.
Qed.

Lemma blank_rev s : PyStr.blank (rev s) = PyStr.blank s.
Proof.
  unfold PyStr.blank. induction s as [|c s IH]; simpl; [reflexivity|].
  rewrite forallb_app, IH. simpl.
  rewrite andb_true_r. apply andb_comm.
Qed.

Lemma lstrip_suffix s : exists p, s = p ++ PyStr.lstrip s /\ PyStr.blank p = true.
Proof.
  induction s as [|c s [p [Hp Hb]]]; simpl.
  - exists []. split; reflexivity.
  - destruct (PyStr.isspace c) eqn:Hc.
    + exists (c :: p). simpl. rewrite Hc, Hb. split; [f_equal; exact Hp|reflexivity].
    + exists []. split; reflexivity.
Qed.

Lemma strip_nil_iff s : PyStr.strip s = [] <-> PyStr.blank s = true.
Proof.
  unfold PyStr.strip, PyStr.rstrip. split.
  - intros H.
    assert (Hr : PyStr.lstrip (rev (PyStr.lstrip s)) = []).
    { rewrite <- (rev_involutive (PyStr.lstrip _)), H. reflexivity. }
    apply lstrip_nil_iff in Hr. rewrite blank_rev in Hr.
    destruct (lstrip_suffix s) as [p [Hp Hb]].
    rewrite Hp. unfold PyStr.blank in *. rewrite forallb_app, Hb, Hr. reflexivity.
  - intros H. apply lstrip_nil_iff in H. rewrite H. reflexivity.
Qed.

(** The guard of the handler, [not s or not s.strip()], is the blank test. *)
Lemma missing_iff_blank s :
  negb (PyStr.truthy s) || negb (PyStr.truthy (PyStr.strip s)) = PyStr.blank s.
Proof.
  destruct (PyStr.blank s) eqn:Hb.
  - apply strip_nil_iff in Hb. rewrite Hb. simpl. apply orb_true_r.
  - destruct s as [|c s]; [discriminate Hb|]. simpl.
    destruct (PyStr.strip (c :: s)) eqn:Hs; [|reflexivity].
    apply strip_nil_iff in Hs. congruence.
Qed.

(** ** Facts about [base64] and UTF-8 *)

Lemma alphabet_ascii :
  Forall (fun b => Byte.to_N b < 128) (Base64.pad :: Base64.alphabet).
Proof. repeat constructor. Qed.

Lemma sextet_ascii n shift : Byte.to_N (Base64.sextet n shift) < 128.
Proof.
  unfold Base64.sextet.
  pose proof alphabet_ascii as H. rewrite Forall_forall in H. apply H.
  apply list_elem_of_In.
  destruct (nth_in_or_default (N.to_nat (N.land (N.shiftr n shift) 63))
              Base64.alphabet Base64.pad) as [Hin | ->].
  - right. exact Hin.
  - left. reflexivity.
Qed.

Lemma b64encode_ascii : forall l,
  Forall (fun b => Byte.to_N b < 128) (Base64.b64encode l).
Proof.
  fix IH 1. intros [|a [|b [|c rest]]]; simpl.
  - constructor.
  - repeat constructor; apply sextet_ascii.
  - repeat constructor; apply sextet_ascii.
  - repeat (constructor; [apply sextet_ascii|]). apply IH.
Qed.

Lemma decode_ascii l :
  Forall (fun b => Byte.to_N b < 128) l ->
  PyStr.decode l = Some (map Byte.to_N l).
Proof.
  unfold PyStr.decode. induction 1 as [|b l Hb _ IH]; [reflexivity|].
  cbn [map PyStr.utf8_decode].
  apply N.ltb_lt in Hb. rewrite Hb, IH. reflexivity.
Qed.

(** Base64 text is ASCII, so decoding it never raises. *)
Lemma decode_b64encode b :
  PyStr.decode (Base64.b64encode b) = Some (map Byte.to_N (Base64.b64encode b)).
Proof. apply decode_ascii, b64encode_ascii. Qed.

End StringFacts.

(** ** Preservation of a relation by the monad's combinators *)

Section Preserves.
Context {S : Type} (R : S -> S -> Prop) `{!PreOrder R}.

Lemma preserves_ret {E A} (a : A) : preserves R (ret (E := E) a).
Proof. intros s. reflexivity. Qed.

Lemma preserves_raise {E A} (e : E) : preserves R (raise (A := A) e).
Proof. intros s. reflexivity. Qed.

Lemma preserves_get {E} : preserves R (get (E := E)).
Proof. intros s. reflexivity. Qed.

Lemma preserves_modify {E} (f : S -> S) :
  (forall s, R s (f s)) -> preserves R (modify (E := E) f).
Proof. intros H s. apply H. Qed.

Lemma preserves_bind {E A B} (m : M S E A) (k : A -> M S E B) :
  preserves R m -> (forall a, preserves R (k a)) -> preserves R (bind m k).
Proof.
  intros Hm Hk s. unfold bind. specialize (Hm s).
  destruct (m s) as [[a|e] s']; simpl in *.
  - etransitivity; [exact Hm | apply Hk].
  - exact Hm.
Qed.

Lemma preserves_try_except {E E' A} (m : M S E A) (h : E -> M S E' A) :
  preserves R m -> (forall e, preserves R (h e)) -> preserves R (try_except m h).
Proof.
  intros Hm Hh s. unfold try_except. specialize (Hm s).
  destruct (m s) as [[a|e] s']; simpl in *.
  - exact Hm.
  - etransitivity; [exact Hm | apply Hh].
Qed.

Lemma preserves_try_except_if {E A} (c : E -> bool) (m : M S E A) (h : E -> M S E A) :
  preserves R m -> (forall e, preserves R (h e)) ->
  preserves R (try_except_if c m h).
Proof.
  intros Hm Hh. apply preserves_try_except; [exact Hm|].
  intros e. destruct (c e); [apply Hh | apply preserves_raise].
Qed.

Lemma preserves_try_finally {E A} (m : M S E A) (f : M S E unit) :
  preserves R m -> preserves R f -> preserves R (try_finally m f).
Proof.
  intros Hm Hf s. unfold try_finally. specialize (Hm s).
  destruct (m s) as [r s']; simpl in *. specialize (Hf s').
  destruct (f s') as [[u|e] s'']; simpl in *; etransitivity; eauto.
Qed.

End Preserves.

#[local] Instance on_world_preorder {L} R `{!PreOrder R} :
  PreOrder (on_world (L := L) R).
Proof.
  split.
  - intros s. unfold on_world. reflexivity.
  - intros s1 s2 s3. unfold on_world. apply transitivity.
Qed.

Lemma preserves_global {L E A} (R : World -> World -> Prop) (m : M World E A) :
  preserves R m -> preserves (on_world (L := L) R) (global m).
Proof.
  intros Hm [w l]. unfold global, on_world. specialize (Hm w). simpl.
  destruct (m w) as [r w']. exact Hm.
Qed.

Lemma preserves_in_frame {L E A} (R : World -> World -> Prop) (init : L)
    (m : M (World * L) E A) :
  preserves (on_world R) m -> preserves R (in_frame init m).
Proof.
  intros Hm w. unfold in_frame. specialize (Hm (w, init)).
  destruct (m (w, init)) as [r s']. exact Hm.
Qed.

Lemma preserves_locals {L E} (R : World -> World -> Prop) `{!PreOrder R} :
  preserves (on_world R) (locals (W := World) (L := L) (E := E)).
Proof. intros s. unfold on_world. simpl. reflexivity. Qed.

Lemma preserves_set_locals {L E} (R : World -> World -> Prop) `{!PreOrder R} (l : L) :
  preserves (on_world R) (set_locals (W := World) (E := E) l).
Proof. intros s. unfold on_world. simpl. reflexivity. Qed.

(** ** The globals are written by [load_model] only *)

#[local] Instance same_globals_preorder : PreOrder same_globals.
Proof.
  split.
  - intros w. repeat split.
  - intros w1 w2 w3. unfold same_globals.
    intros (-> & -> & ->) (-> & -> & ->). repeat split.
Qed.

Create HintDb globals.

#[local] Hint Resolve preserves_ret preserves_raise preserves_get
  preserves_locals preserves_set_locals : globals.
#[local] Hint Extern 2 (preserves _ (modify _)) =>
  apply preserves_modify; intros ?; repeat split : globals.

(** Preservation goals follow the shape of the block; the leaves are in the
    hint database. *)
Ltac keeps :=
  repeat (intros;
    match goal with
    | |- preserves _ (let _ := _ in _) => cbv zeta
    | |- preserves _ (bind _ _) => apply preserves_bind
    | |- preserves _ (try_except _ _) => apply preserves_try_except
    | |- preserves _ (try_except_if _ _ _) => apply preserves_try_except_if
    | |- preserves _ (try_finally _ _) => apply preserves_try_finally
    | |- preserves _ (global _) => apply preserves_global
    | |- preserves _ (in_frame _ _) => apply preserves_in_frame
    | |- preserves _ (if ?b then _ else _) => destruct b
    | |- preserves _ (match ?o with Some _ => _ | None => _ end) => destruct o
    | |- _ => solve [eauto with globals typeclass_instances]
    end).

Lemma logger_info_globals {E} msg : preserves same_globals (logger_info (E := E) msg).
Proof. unfold logger_info. eauto with globals. Qed.

Lemma logger_error_globals {E} msg : preserves same_globals (logger_error (E := E) msg).
Proof. unfold logger_error. eauto with globals. Qed.

Lemma time_time_globals {E} : preserves same_globals (time_time (E := E)).
Proof. intros w. repeat split. Qed.

Lemma call_globals ev : preserves same_globals (call ev).
Proof.
  intros w. unfold call. destruct (faults _ _ _); repeat split.
Qed.

#[local] Hint Resolve logger_info_globals logger_error_globals time_time_globals
  call_globals : globals.

Lemma NamedTemporaryFile_globals : preserves same_globals NamedTemporaryFile.
Proof. unfold NamedTemporaryFile. keeps. Qed.

Lemma file_write_globals p c : preserves same_globals (file_write p c).
Proof. unfold file_write. keeps. Qed.

Lemma file_read_globals p : preserves same_globals (file_read p).
Proof. unfold file_read. keeps. Qed.

Lemma os_unlink_globals p : preserves same_globals (os_unlink p).
Proof. unfold os_unlink. keeps. Qed.

Lemma upload_read_globals f : preserves same_globals (upload_read f).
Proof. unfold upload_read. keeps. Qed.

Lemma model_infer_globals p a b c d : preserves same_globals (model_infer p a b c d).
Proof. unfold model_infer. keeps. Qed.

Lemma b64_text_globals b : preserves same_globals (b64_text b).
Proof. unfold b64_text. keeps. Qed.

#[local] Hint Resolve NamedTemporaryFile_globals file_write_globals file_read_globals
  os_unlink_globals upload_read_globals model_infer_globals b64_text_globals : globals.

Section HandlersKeepGlobals.
Variable wav_encode : list Q -> Z -> bytes.

Lemma sf_write_globals p d r : preserves same_globals (sf_write wav_encode p d r).
Proof. unfold sf_write. keeps. Qed.
#[local] Hint Resolve sf_write_globals : globals.

Lemma root_globals : preserves same_globals root.
Proof. unfold root. keeps. Qed.

Lemma health_check_globals : preserves same_globals health_check.
Proof. unfold health_check. keeps. Qed.

Lemma test_synthesis_globals : preserves same_globals test_synthesis.
Proof. unfold test_synthesis. keeps. Qed.

Lemma synthesize_cleanup_globals p :
  preserves (on_world same_globals) (synthesize_cleanup p).
Proof. unfold synthesize_cleanup. keeps. Qed.

Lemma synthesize_body_globals rq t p :
  preserves (on_world same_globals) (synthesize_body wav_encode rq t p).
Proof. unfold synthesize_body. keeps. Qed.

Lemma synthesize_speech_globals rq :
  preserves same_globals (synthesize_speech wav_encode rq).
Proof.
  pose proof synthesize_cleanup_globals. pose proof synthesize_body_globals.
  unfold synthesize_speech, synthesize_try, synthesize_guarded. keeps.
Qed.

Lemma route_globals r : preserves same_globals (route wav_encode r).
Proof.
  pose proof root_globals. pose proof health_check_globals.
  pose proof test_synthesis_globals. pose proof synthesize_speech_globals.
  destruct r; simpl; keeps.
Qed.

Lemma serve_globals rs w : same_globals w (serve wav_encode rs w).
Proof.
  unfold serve. revert w.
  induction rs as [|r rs IH]; intros w; simpl.
  - reflexivity.
  - etransitivity; [apply route_globals | apply IH].
Qed.

End HandlersKeepGlobals.

(** ** Running a block on a symbolic world *)

Ltac unfold_py :=
  unfold in_frame, try_finally, try_except_if, try_except, global, locals, set_locals,
    NamedTemporaryFile, upload_read, file_write, model_infer, file_read,
    os_unlink, b64_text, logger_info, logger_error, time_time, call,
    bind, get, modify, ret, raise.

(** One step: split on the next answer of the environment, or on the next
    value the block inspects. *)
Ltac step :=
  match goal with
  | |- context [faults ?e ?t ?ev] => destruct (faults e t ev) eqn:?
  | |- context [match ?o with Some _ => _ | None => _ end] => destruct o eqn:?
  | |- context [is_ImportError ?e] => destruct e
  end; cbn.

Lemma new_events_app w w' evs :
  trace w' = trace w ++ evs -> new_events w w' = evs.
Proof. intros H. unfold new_events. rewrite H. apply drop_app_length. Qed.

Ltac flatten_traces :=
  repeat rewrite <- app_assoc in *; cbn [app] in *.

Lemma load_model_spec w :
  exists b w',
    load_model w = (Ret b, w') /\
    env w' = env w /\ fs w' = fs w /\ vocoder w' = vocoder w /\
    (b = false -> model w' = model w) /\
    (b = true -> model w' = Some (F5TTS_new (env w) cpu) /\ device w' = Some cpu) /\
    count is_install (new_events w w') <= 1 /\
    count is_import (new_events w w') <= 2 /\
    count is_construct (new_events w w') <= 1 /\
    (forall msg, first_import_outcome w = Some (ImportError msg) ->
       count is_install (new_events w w') = 1 /\
       match install_outcome w with
       | None => count is_import (new_events w w') = 2
       | Some _ => count is_import (new_events w w') = 1 /\ b = false
       end) /\
    ((forall msg, first_import_outcome w <> Some (ImportError msg)) ->
       count is_install (new_events w w') = 0 /\
       count is_import (new_events w w') = 1).
Proof.
  destruct w as [e m v d f tk tr lg].
  unfold load_model, install_f5_tts, first_import_outcome, install_outcome.
  unfold_py. cbn.
  repeat step.
  all: eexists _, _; split; [reflexivity|]; cbn.
  all: flatten_traces.
  all: rewrite ?drop_app_length; cbn.
  all: repeat split; intros; try congruence; try lia.
  all: try (exfalso; match goal with H : forall _, _ <> _ |- _ => eapply H; reflexivity end).
Qed.

Lemma cons_split {A} (x : A) l pre y post :
  x :: l = pre ++ y :: post ->
  (pre = [] /\ x = y /\ l = post) \/
  (exists pre', pre = x :: pre' /\ l = pre' ++ y :: post).
Proof.
  destruct pre as [|a pre']; cbn; intros [= -> ->]; [left | right]; eauto.
Qed.

Lemma nil_split {A} (pre : list A) y post : [] = pre ++ y :: post -> False.
Proof. destruct pre; discriminate. Qed.

(** Every way of cutting a list that is known element by element. *)
Ltac cuts H :=
  repeat match type of H with
  | [] = _ ++ _ :: _ => exfalso; exact (nil_split _ _ _ H)
  | _ :: _ = _ ++ _ :: _ =>
    apply cons_split in H;
    destruct H as [(-> & <- & <-) | (? & -> & H)]
  end.

(** The calls of [load_model] that raise, and what they do to its result:
    only an [ImportError] of the first import is survived. *)
Lemma load_model_failures w :
  exists b w',
    load_model w = (Ret b, w') /\
    (forall pre ev post err,
       raised_at w w' pre ev post err ->
       is_load_step ev = true ->
       (pre = [EvTime (clock (env w) (ticks w))] /\ ev = EvImportF5TTS /\
        is_ImportError err = true /\ post <> []) \/
       (b = false /\ post = [])) /\
    (b = false ->
       exists pre ev err, raised_at w w' pre ev [] err /\ is_load_step ev = true) /\
    (b = true -> model w' = Some (F5TTS_new (env w) cpu)) /\
    (forall err, first_import_outcome w = Some err -> is_ImportError err = false ->
       b = false).
Proof.
  destruct w as [e m v d f tk tr lg].
  unfold load_model, install_f5_tts, raised_at, first_import_outcome.
  unfold_py. cbn.
  repeat step.
  all: eexists _, _; split; [reflexivity|]; cbn.
  all: flatten_traces.
  all: rewrite ?drop_app_length; cbn.
  all: split; [|split; [|split];
                [intros Hb | intros Hb | intros err [= <-] Hi];
                try discriminate; try reflexivity].
  all: try (intros pre ev post err [Hcut Hf] Hk; cuts Hcut; cbn in Hk;
            try discriminate Hk; flatten_traces;
            first [ congruence
                  | right; split; reflexivity
                  | left; match goal with
                          | H : faults _ _ _ = Some (ImportError ?msg) |- _ =>
                            assert (err = ImportError msg) by congruence
                          end; subst err;
                    repeat split; (reflexivity || discriminate) ]).
  all: eexists _, _, _; split; [split; [|eassumption]; reflexivity|reflexivity].
Qed.

(** Reading the scratch files back: look-ups through the updates made so
    far, with the side conditions on distinct names left to [congruence]. *)
Ltac read_fs :=
  repeat first
    [ rewrite lookup_insert_eq
    | rewrite lookup_delete_eq
    | rewrite lookup_insert_ne by congruence
    | rewrite lookup_delete_ne by congruence
    | match goal with H : ?f !! ?p = _ |- context [?f !! ?p] => rewrite H end ].

Lemma fresh_lookup (f : gmap path bytes) : f !! fresh (dom f) = None.
Proof. apply not_elem_of_dom, is_fresh. Qed.

(** Equality of two file systems, key by key. *)
Ltac fs_eq :=
  apply map_eq; intros ?;
  repeat first [rewrite lookup_delete | rewrite lookup_insert];
  repeat case_decide; subst; congruence.

Section ScratchFiles.
Variable wav_encode : list Q -> Z -> bytes.

Lemma synthesize_guarded_fs rq t p c w :
  fs w !! p = Some c ->
  never_fails (env w) is_unlink ->
  fs (snd (synthesize_guarded wav_encode rq t p w)) = delete p (fs w).
Proof.
  destruct w as [e m v d f tk tr lg]. cbn [env fs]. intros Hp Hu.
  pose proof (fresh_lookup f) as Hq.
  set (q := fresh (dom f)) in *.
  assert (Hne : q <> p) by congruence.
  unfold synthesize_guarded, synthesize_body, synthesize_cleanup, sf_write.
  unfold_py.
  repeat (repeat (progress (cbn; fold q; rewrite ?Hu by reflexivity; read_fs));
          try step).
  all: fs_eq.
Qed.

Lemma synthesize_try_fs rq w :
  never_fails (env w) is_staging ->
  never_fails (env w) is_unlink ->
  fs (snd (synthesize_try wav_encode rq w)) = fs w.
Proof.
  destruct w as [e m v d f tk tr lg]. cbn [env fs]. intros Hs Hu.
  pose proof (fresh_lookup f) as Hp.
  set (p := fresh (dom f)) in *.
  unfold synthesize_try. unfold_py. cbn. fold p.
  step; [reflexivity|].
  rewrite !Hs by reflexivity. cbn.
  erewrite synthesize_guarded_fs; cbn; [| apply lookup_insert_eq | exact Hu].
  fs_eq.
Qed.

Lemma synthesize_speech_fs rq w :
  never_fails (env w) is_staging ->
  never_fails (env w) is_unlink ->
  fs (snd (synthesize_speech wav_encode rq w)) = fs w.
Proof.
  intros Hs Hu. pose proof (synthesize_try_fs rq w Hs Hu) as H.
  unfold synthesize_speech, try_except, logger_error, bind, get, modify, ret, raise.
  destruct (is_None (model w)); [reflexivity|].
  destruct (missing (text rq)); [reflexivity|].
  destruct (missing (ref_text rq)); [reflexivity|].
  destruct (synthesize_try wav_encode rq w) as [[r|x] w']; exact H.
Qed.

(** The [finally] block never raises. *)
Lemma synthesize_cleanup_silent p s :
  exists s', synthesize_cleanup p s = (Ret tt, s').
Proof.
  destruct s as [w l].
  unfold synthesize_cleanup. unfold_py. cbn.
  repeat step; eexists; reflexivity.
Qed.

End ScratchFiles.

Section Outcomes.
Variable wav_encode : list Q -> Z -> bytes.

(** What a synthesis that succeeds returns, and the calls it has made. *)
Lemma synthesize_guarded_success rq t0 p c w r w' :
  fs w !! p = Some c ->
  synthesize_guarded wav_encode rq t0 p w = (Ret r, w') ->
  exists m q tail,
    model w = Some m /\
    r = {| SynthR.success := true;
           SynthR.audio_base64 :=
             map Byte.to_N
               (Base64.b64encode
                  (wav_encode
                     (numpy (infer m c (ref_text rq) (text rq) (speed rq)
                                   (remove_silence rq))) 24000));
           SynthR.format := PyStr.lit "wav";
           SynthR.sample_rate := 24000;
           SynthR.processing_time := (clock (env w) (ticks w) - t0)%Q;
           SynthR.text_length := PyStr.len (text rq);
           SynthR.ref_text := ref_text rq |} /\
    trace w' = trace w ++
      [EvInfer p (ref_text rq) (text rq) (speed rq) (remove_silence rq);
       EvTmpCreate q; EvImportSoundfile; EvSfWrite q 24000; EvFileRead q;
       EvTime (clock (env w) (ticks w))] ++ tail /\
    forallb is_unlink tail = true /\
    (never_fails (env w) is_unlink -> tail = [EvUnlink p; EvUnlink q]).
Proof.
  destruct w as [e m v d f tk tr lg]. cbn [env fs model trace ticks]. intros Hp.
  pose proof (fresh_lookup f) as Hq.
  assert (Hne : fresh (dom f) <> p) by congruence.
  unfold synthesize_guarded, synthesize_body, synthesize_cleanup, sf_write.
  unfold_py.
  repeat (repeat (progress (cbn; rewrite ?decode_b64encode; read_fs));
          try step; try discriminate).
  all: intros H; injection H as <- <-; cbn.
  all: eexists _, _, _; split; [reflexivity|]; split; [reflexivity|].
  all: flatten_traces; split; [reflexivity|]; split; [reflexivity|].
  all: intros Hu; try reflexivity; exfalso; unfold never_fails in Hu.
  all: match goal with
       | H : faults _ _ (EvUnlink _) = Some _ |- _ =>
         rewrite Hu in H by reflexivity; discriminate H
       end.
Qed.

Lemma synthesize_try_success rq w r w' :
  synthesize_try wav_encode rq w = (Ret r, w') ->
  exists m p q tail,
    model w = Some m /\
    r = {| SynthR.success := true;
           SynthR.audio_base64 :=
             map Byte.to_N
               (Base64.b64encode (wav_encode (numpy (waveform m rq)) 24000));
           SynthR.format := PyStr.lit "wav";
           SynthR.sample_rate := 24000;
           SynthR.processing_time :=
             (clock (env w) (S (ticks w)) - clock (env w) (ticks w))%Q;
           SynthR.text_length := PyStr.len (text rq);
           SynthR.ref_text := ref_text rq |} /\
    trace w' = trace w ++
      synthesis_calls rq p q (clock (env w) (ticks w)) (clock (env w) (S (ticks w)))
      ++ tail /\
    forallb is_unlink tail = true /\
    (never_fails (env w) is_unlink -> tail = [EvUnlink p; EvUnlink q]).
Proof.
  destruct w as [e m v d f tk tr lg]. cbn [env fs model trace ticks].
  unfold synthesize_try. unfold_py. cbn.
  do 3 (step; [discriminate|]).
  intros H. eapply synthesize_guarded_success in H; [|apply lookup_insert_eq].
  destruct H as (m' & q & tail & Hm & -> & Htr & Htail & Hun). cbn in *.
  exists m', (fresh (dom f)), q, tail.
  split; [exact Hm|]. split; [reflexivity|].
  split; [|split; [exact Htail | exact Hun]].
  rewrite Htr. unfold synthesis_calls. flatten_traces. reflexivity.
Qed.

(** A response of [synthesize_speech] is a response of its [try] block, and
    both guards were passed. *)
Lemma synthesize_speech_ret rq w r w' :
  synthesize_speech wav_encode rq w = (Ret r, w') ->
  is_None (model w) = false /\ missing (text rq) = false /\
  missing (ref_text rq) = false /\
  synthesize_try wav_encode rq w = (Ret r, w').
Proof.
  unfold synthesize_speech, try_except, logger_error, bind, get, modify, ret, raise.
  destruct (is_None (model w)); [discriminate|].
  destruct (missing (text rq)); [discriminate|].
  destruct (missing (ref_text rq)); [discriminate|].
  destruct (synthesize_try wav_encode rq w) as [[r0|x] w0]; [|discriminate].
  intros H. injection H as <- <-. repeat split.
Qed.

(** An error of [synthesize_speech] is one of the two rejections, which
    leave the world as it was, or the 500 of the [except] clause. *)
Lemma synthesize_speech_raise rq w x w' :
  synthesize_speech wav_encode rq w = (Raise x, w') ->
  (status_code x = 503%Z /\ w' = w /\ model w = None) \/
  (status_code x = 400%Z /\ w' = w /\
   (missing (text rq) = true \/ missing (ref_text rq) = true)) \/
  status_code x = 500%Z.
Proof.
  unfold synthesize_speech, try_except, logger_error, bind, get, modify, ret, raise.
  destruct (model w) eqn:Hm; cbn [is_None].
  2: { intros H. injection H as <- <-. left. repeat split. }
  destruct (missing (text rq)) eqn:Ht.
  { intros H. injection H as <- <-. right. left. repeat split. left. reflexivity. }
  destruct (missing (ref_text rq)) eqn:Hr.
  { intros H. injection H as <- <-. right. left. repeat split. right. reflexivity. }
  destruct (synthesize_try wav_encode rq w) as [[r0|e] w0]; [discriminate|].
  intros H. injection H as <- <-. right. right. reflexivity.
Qed.

End Outcomes.

(** * The claims *)

Lemma run_eq {S E A} (m : M S E A) s r :
  fst (m s) = r -> m s = (r, snd (m s)).
Proof. intros <-. destruct (m s); reflexivity. Qed.

Section SynthesisClaims.
Variable wav_encode : list Q -> Z -> bytes.

(** C1: while the model handle is unset, every call of [synthesize_speech]
    raises the 503 error "Modelo no cargado", whatever the request holds;
    the readiness check comes before any validation, and the world is left
    as it was. *)
Theorem synthesize_unready_503 (rq : SynthRequest) (w : World) :
  model w = None ->
  synthesize_speech wav_encode rq w
  = (Raise {| status_code := 503; detail := PyStr.lit "Modelo no cargado" |}, w).
Proof.
  intros H. unfold synthesize_speech, bind, get. rewrite H. reflexivity.
Qed.

(** C2: with the model handle set, a request whose [text] or [ref_text] is
    empty or whitespace only raises the 400 error, and nothing else happens:
    the world is unchanged, so no inference was started. *)
Theorem synthesize_blank_400 (rq : SynthRequest) (w : World) (m : F5TTS) :
  model w = Some m ->
  PyStr.blank (text rq) = true \/ PyStr.blank (ref_text rq) = true ->
  synthesize_speech wav_encode rq w
  = (Raise {| status_code := 400;
              detail := if PyStr.blank (text rq)
                        then PyStr.lit "Texto requerido"
                        else PyStr.lit "Transcripción del audio de referencia requerida" |},
     w).
Proof.
  intros Hm Hb. unfold synthesize_speech, bind, get, missing.
  rewrite Hm, !missing_iff_blank. cbn.
  destruct (PyStr.blank (text rq)); [reflexivity|].
  destruct Hb as [Hb|Hb]; [discriminate|]. rewrite Hb. reflexivity.
Qed.

(** C3: a call that succeeds answers [success = true], [format = "wav"],
    [sample_rate = 24000], and its payload is the base64 text of the WAV
    encoding, at 24000 Hz, of the waveform the model returned; the encoder is
    never called at another rate, whatever the uploaded audio is. *)
Theorem synthesize_wav_24000 (rq : SynthRequest) (w : World) (r : SynthR.t) :
  fst (synthesize_speech wav_encode rq w) = Ret r ->
  exists m,
    model w = Some m /\
    SynthR.success r = true /\
    SynthR.format r = PyStr.lit "wav" /\
    SynthR.sample_rate r = 24000%Z /\
    SynthR.audio_base64 r
    = map Byte.to_N (Base64.b64encode (wav_encode (numpy (waveform m rq)) 24000)) /\
    PyStr.decode (Base64.b64encode (wav_encode (numpy (waveform m rq)) 24000))
    = Some (SynthR.audio_base64 r) /\
    forall q rate,
      In (EvSfWrite q rate) (new_events w (snd (synthesize_speech wav_encode rq w))) ->
      rate = 24000%Z.
Proof.
  intros H. apply run_eq, synthesize_speech_ret in H.
  destruct H as (_ & _ & _ & H).
  apply synthesize_try_success in H.
  destruct H as (m & p & q & tail & Hm & -> & Htr & Htail & _).
  apply new_events_app in Htr. rewrite Htr.
  exists m. cbn [SynthR.success SynthR.format SynthR.sample_rate SynthR.audio_base64].
  repeat split; try assumption.
  - apply decode_b64encode.
  - intros q' rate. rewrite in_app_iff. intros [Hin | Hin].
    + cbn in Hin. intuition congruence.
    + rewrite forallb_forall in Htail. apply Htail in Hin. discriminate.
Qed.

(** C5: in a call that succeeds, [text_length] is the number of characters
    of [text] as submitted: nothing is trimmed before counting. *)
Theorem text_length_is_len (rq : SynthRequest) (w : World) (r : SynthR.t) :
  fst (synthesize_speech wav_encode rq w) = Ret r ->
  SynthR.text_length r = Z.of_nat (length (text rq)).
Proof.
  intros H. apply run_eq, synthesize_speech_ret in H.
  destruct H as (_ & _ & _ & H).
  apply synthesize_try_success in H.
  destruct H as (m & p & q & tail & _ & -> & _). reflexivity.
Qed.

(** C6 (amended): in a call that succeeds, [processing_time] is the second
    reading of the wall clock minus the first.  The first is taken after
    validation, before the reference audio is stored; the second after the
    payload is encoded; every call to the model, the encoder and the scratch
    files lies between them, and only the deletions follow.  The value is
    non-negative whenever the clock did not go back between the readings. *)
Theorem processing_time_window (rq : SynthRequest) (w : World) (r : SynthR.t) :
  fst (synthesize_speech wav_encode rq w) = Ret r ->
  let t0 := clock (env w) (ticks w) in
  let t1 := clock (env w) (S (ticks w)) in
  SynthR.processing_time r = (t1 - t0)%Q /\
  ((t0 <= t1)%Q -> (0 <= SynthR.processing_time r)%Q) /\
  exists p q tail,
    new_events w (snd (synthesize_speech wav_encode rq w))
    = synthesis_calls rq p q t0 t1 ++ tail /\
    forallb is_unlink tail = true.
Proof.
  intros H t0 t1. apply run_eq, synthesize_speech_ret in H.
  destruct H as (_ & _ & _ & H).
  apply synthesize_try_success in H.
  destruct H as (m & p & q & tail & _ & -> & Htr & Htail & _).
  cbn [SynthR.processing_time]. split; [reflexivity|]. split.
  - intros Hle. unfold Qminus. apply Qle_minus_iff in Hle. exact Hle.
  - exists p, q, tail. split; [|exact Htail].
    apply new_events_app. exact Htr.
Qed.

(** C4 (amended): take a call that passes validation, in an environment
    where storing the reference audio and deleting a file do not raise.  On
    every exit path, a response or the 500 error, the files on disk after
    the call are those before it: each scratch file that was created has
    been deleted.  On the success path these are the two scratch files, and
    the call ends with their two deletions.  And the clean-up block never
    raises, whatever the deletions do. *)
Theorem scratch_files_deleted (rq : SynthRequest) (w : World) (m : F5TTS) :
  model w = Some m ->
  missing (text rq) = false ->
  missing (ref_text rq) = false ->
  never_fails (env w) is_staging ->
  never_fails (env w) is_unlink ->
  fs (snd (synthesize_speech wav_encode rq w)) = fs w /\
  match fst (synthesize_speech wav_encode rq w) with
  | Ret _ =>
    exists p q,
      new_events w (snd (synthesize_speech wav_encode rq w))
      = synthesis_calls rq p q (clock (env w) (ticks w))
                        (clock (env w) (S (ticks w)))
        ++ [EvUnlink p; EvUnlink q]
  | Raise x => status_code x = 500%Z
  end /\
  forall p s, exists s', synthesize_cleanup p s = (Ret tt, s').
Proof.
  intros Hm Ht Hr Hs Hu.
  split; [apply synthesize_speech_fs; assumption|].
  split; [|apply synthesize_cleanup_silent].
  destruct (synthesize_speech wav_encode rq w) as [[r|x] w'] eqn:H; cbn [fst snd].
  - apply synthesize_speech_ret in H. destruct H as (_ & _ & _ & H).
    apply synthesize_try_success in H.
    destruct H as (_ & p & q & tail & _ & _ & Htr & _ & Hun).
    exists p, q. rewrite <- (Hun Hu). apply new_events_app. exact Htr.
  - apply synthesize_speech_raise in H.
    destruct H as [(_ & _ & H) | [(_ & _ & H) | H]]; [| |exact H].
    + congruence.
    + destruct H; congruence.
Qed.

(** C10: a call rejected with 503 or 400 has no effect at all: the world
    after it is the world before it, so no scratch file was created, the
    upload was not read, and the model was not called. *)
Theorem rejection_is_atomic (rq : SynthRequest) (w w' : World) (x : HTTPException) :
  synthesize_speech wav_encode rq w = (Raise x, w') ->
  status_code x = 503%Z \/ status_code x = 400%Z ->
  w' = w.
Proof.
  intros H Hc. apply synthesize_speech_raise in H.
  destruct H as [(_ & H & _) | [(_ & H & _) | H]]; [exact H | exact H |].
  rewrite H in Hc. destruct Hc; discriminate.
Qed.

End SynthesisClaims.

(** What start-up leaves in the globals. *)
Lemma startup_event_globals w :
  (model (snd (startup_event w)) = model w \/
   model (snd (startup_event w)) = Some (F5TTS_new (env w) cpu)) /\
  vocoder (snd (startup_event w)) = vocoder w.
Proof.
  unfold startup_event, bind, logger_info, logger_error, modify.
  match goal with |- context [load_model ?w0] =>
    destruct (load_model_spec w0) as (b & w' & Heq & _ & _ & Hv & Hf & Ht & _)
  end.
  rewrite Heq. destruct b; cbn.
  - destruct (Ht eq_refl) as [Hm _]. split; [right; exact Hm | exact Hv].
  - split; [left; exact (Hf eq_refl) | exact Hv].
Qed.

(** C7 (amended): [load_model] never raises: it returns [True] or [False].
    When it returns [False] the global [model] is what it was.  When the
    first import raises [ImportError] it runs the installation exactly
    once; if the installation succeeds it imports once more, and if the
    installation raises it gives up with [False] without importing again.
    In no run are there more than one installation, two imports and one
    construction.  Every failure is reported: when an import, the
    installation or the constructor raises, then, unless it is the first
    import raising [ImportError], that call is the last one and the result
    is [False] (so it is when the first import raises anything but
    [ImportError]); [False] is returned in no other way, and [True] leaves
    [model] set to the handle that the constructor returned. *)
Theorem load_model_never_raises (w : World) :
  (fst (load_model w) = Ret true \/ fst (load_model w) = Ret false) /\
  (fst (load_model w) = Ret false -> model (snd (load_model w)) = model w) /\
  (forall msg, first_import_outcome w = Some (ImportError msg) ->
     count is_install (new_events w (snd (load_model w))) = 1 /\
     (install_outcome w = None ->
        count is_import (new_events w (snd (load_model w))) = 2) /\
     (install_outcome w <> None ->
        count is_import (new_events w (snd (load_model w))) = 1 /\
        fst (load_model w) = Ret false)) /\
  count is_install (new_events w (snd (load_model w))) <= 1 /\
  count is_import (new_events w (snd (load_model w))) <= 2 /\
  count is_construct (new_events w (snd (load_model w))) <= 1 /\
  (forall pre ev post err,
     raised_at w (snd (load_model w)) pre ev post err ->
     is_load_step ev = true ->
     (pre = [EvTime (clock (env w) (ticks w))] /\ ev = EvImportF5TTS /\
      is_ImportError err = true /\ post <> []) \/
     (fst (load_model w) = Ret false /\ post = [])) /\
  (fst (load_model w) = Ret false ->
     exists pre ev err,
       raised_at w (snd (load_model w)) pre ev [] err /\ is_load_step ev = true) /\
  (fst (load_model w) = Ret true ->
     model (snd (load_model w)) = Some (F5TTS_new (env w) cpu)) /\
  (forall err, first_import_outcome w = Some err -> is_ImportError err = false ->
     fst (load_model w) = Ret false).
Proof.
  destruct (load_model_spec w)
    as (b & w' & Heq & _ & _ & _ & Hf & _ & Hi & Hm & Hc & Himp & _).
  destruct (load_model_failures w)
    as (b0 & w0 & Heq0 & Hall & Hlast & Hok & Hother).
  rewrite Heq in Heq0. injection Heq0 as <- <-.
  rewrite Heq. cbn [fst snd].
  split; [destruct b; auto|].
  split; [intros [= ->]; apply Hf; reflexivity|].
  split.
  { intros msg H. destruct (Himp msg H) as [H1 H2]. split; [exact H1|].
    destruct (install_outcome w).
    - destruct H2 as [H2 ->]. split; [discriminate | intros _; auto].
    - split; [intros _; exact H2 | congruence]. }
  do 3 (split; [assumption|]).
  split.
  { intros pre ev post err Hr Hk.
    destruct (Hall pre ev post err Hr Hk) as [H | [-> ->]]; [left; exact H|].
    right. split; reflexivity. }
  split; [intros [= ->]; apply Hlast; reflexivity|].
  split; [intros [= ->]; apply Hok; reflexivity|].
  intros err H1 H2. rewrite (Hother err H1 H2). reflexivity.
Qed.

Section LifetimeClaims.
Variable wav_encode : list Q -> Z -> bytes.

(** C8: none of the four handlers writes [model], [vocoder] or [device];
    neither does any sequence of requests.  So after start-up, which leaves
    [model] unset or set to the handle it constructed, the readiness of the
    service never changes. *)
Theorem globals_written_at_startup_only :
  preserves same_globals root /\
  preserves same_globals health_check /\
  (forall rq, preserves same_globals (synthesize_speech wav_encode rq)) /\
  preserves same_globals test_synthesis /\
  (forall rs w, same_globals w (serve wav_encode rs w)) /\
  (forall e disk rs,
     (model (snd (startup_event (boot e disk))) = None \/
      model (snd (startup_event (boot e disk))) = Some (F5TTS_new e cpu)) /\
     model (serve wav_encode rs (snd (startup_event (boot e disk))))
     = model (snd (startup_event (boot e disk))) /\
     device (serve wav_encode rs (snd (startup_event (boot e disk))))
     = device (snd (startup_event (boot e disk))) /\
     vocoder (serve wav_encode rs (snd (startup_event (boot e disk)))) = None).
Proof.
  split; [apply root_globals|].
  split; [apply health_check_globals|].
  split; [apply synthesize_speech_globals|].
  split; [apply test_synthesis_globals|].
  split; [apply serve_globals|].
  intros e disk rs.
  destruct (startup_event_globals (boot e disk)) as [Hm Hv].
  destruct (serve_globals wav_encode rs (snd (startup_event (boot e disk))))
    as (Hm' & Hv' & Hd').
  split; [exact Hm|]. split; [exact Hm'|]. split; [exact Hd'|].
  rewrite Hv', Hv. reflexivity.
Qed.

End LifetimeClaims.

(** C9: [test_synthesis] raises 503 when the model handle is unset, leaving
    the world as it was; otherwise it returns the fixed message and text with
    [success] and [model_ready] true, and its only calls are two readings of
    the clock: the model is not called and no file is touched. *)
Theorem test_synthesis_is_a_stub (w : World) :
  fst (test_synthesis w)
  = (if is_None (model w)
     then Raise {| status_code := 503; detail := PyStr.lit "Modelo no cargado" |}
     else Ret {| TestR.success := true;
                 TestR.message := PyStr.lit "Modelo funcionando correctamente";
                 TestR.processing_time :=
                   (clock (env w) (S (ticks w)) - clock (env w) (ticks w))%Q;
                 TestR.test_text :=
                   PyStr.lit "Hola, esta es una prueba de síntesis de voz.";
                 TestR.model_ready := true |}) /\
  new_events w (snd (test_synthesis w))
  = (if is_None (model w) then []
     else [EvTime (clock (env w) (ticks w)); EvTime (clock (env w) (S (ticks w)))]) /\
  count is_infer (new_events w (snd (test_synthesis w))) = 0 /\
  count is_file_op (new_events w (snd (test_synthesis w))) = 0 /\
  fs (snd (test_synthesis w)) = fs w /\
  (if is_None (model w) then snd (test_synthesis w) = w else True).
Proof.
  destruct w as [e m v d f tk tr lg].
  unfold test_synthesis, new_events. unfold_py.
  destruct m; cbn; flatten_traces; rewrite ?drop_app_length, ?drop_all; cbn;
    repeat split.
Qed.

(** ** The claims at concrete worlds *)

Lemma synthesize_unready_503_witness :
  model (boot Demo.env_ok ∅) = None /\
  synthesize_speech Demo.wav_encode Demo.no_text (boot Demo.env_ok ∅)
  = (Raise {| status_code := 503; detail := PyStr.lit "Modelo no cargado" |},
     boot Demo.env_ok ∅).
Proof.
  split; [reflexivity|].
  apply (synthesize_unready_503 Demo.wav_encode Demo.no_text (boot Demo.env_ok ∅)).
  reflexivity.
Defined.

Lemma synthesize_blank_400_witness :
  PyStr.blank (text Demo.no_text) = true /\
  synthesize_speech Demo.wav_encode Demo.no_text (Demo.ready Demo.env_ok)
  = (Raise {| status_code := 400; detail := PyStr.lit "Texto requerido" |},
     Demo.ready Demo.env_ok).
Proof.
  split; [reflexivity|].
  apply (synthesize_blank_400 Demo.wav_encode Demo.no_text
           (Demo.ready Demo.env_ok) Demo.f5).
  - reflexivity.
  - left. reflexivity.
Defined.

Lemma synthesize_wav_24000_witness :
  fst (synthesize_speech Demo.wav_encode Demo.hola (Demo.ready Demo.env_ok))
  = Ret (Demo.hola_response 1) /\
  exists m,
    model (Demo.ready Demo.env_ok) = Some m /\
    SynthR.success (Demo.hola_response 1) = true /\
    SynthR.format (Demo.hola_response 1) = PyStr.lit "wav" /\
    SynthR.sample_rate (Demo.hola_response 1) = 24000%Z /\
    SynthR.audio_base64 (Demo.hola_response 1)
    = map Byte.to_N
        (Base64.b64encode
           (Demo.wav_encode (numpy (waveform m Demo.hola)) 24000)) /\
    PyStr.decode
      (Base64.b64encode (Demo.wav_encode (numpy (waveform m Demo.hola)) 24000))
    = Some (SynthR.audio_base64 (Demo.hola_response 1)) /\
    forall q rate,
      In (EvSfWrite q rate)
         (new_events (Demo.ready Demo.env_ok)
            (snd (synthesize_speech Demo.wav_encode Demo.hola
                    (Demo.ready Demo.env_ok)))) ->
      rate = 24000%Z.
Proof.
  split; [vm_compute; reflexivity|].
  apply (synthesize_wav_24000 Demo.wav_encode Demo.hola (Demo.ready Demo.env_ok)
           (Demo.hola_response 1)).
  vm_compute. reflexivity.
Defined.

Lemma text_length_is_len_witness :
  fst (synthesize_speech Demo.wav_encode Demo.hola (Demo.ready Demo.env_ok))
  = Ret (Demo.hola_response 1) /\
  SynthR.text_length (Demo.hola_response 1)
  = Z.of_nat (length (text Demo.hola)).
Proof.
  split; [vm_compute; reflexivity|].
  apply (text_length_is_len Demo.wav_encode Demo.hola (Demo.ready Demo.env_ok)
           (Demo.hola_response 1)).
  vm_compute. reflexivity.
Defined.

Lemma processing_time_window_witness :
  fst (synthesize_speech Demo.wav_encode Demo.hola (Demo.ready Demo.env_ok))
  = Ret (Demo.hola_response 1) /\
  (Demo.seconds 0 <= Demo.seconds 1)%Q /\
  (0 <= SynthR.processing_time (Demo.hola_response 1))%Q.
Proof.
  split; [vm_compute; reflexivity|].
  split; [vm_compute; discriminate|].
  apply (processing_time_window Demo.wav_encode Demo.hola (Demo.ready Demo.env_ok)
           (Demo.hola_response 1)).
  - vm_compute. reflexivity.
  - vm_compute. discriminate.
Defined.

(** The clock is set back during a synthesis: the reported time is -1. *)
Lemma processing_time_negative :
  fst (synthesize_speech Demo.wav_encode Demo.hola (Demo.ready Demo.env_clock_back))
  = Ret (Demo.hola_response (-1)) /\
  (SynthR.processing_time (Demo.hola_response (-1)) < 0)%Q.
Proof. split; vm_compute; reflexivity. Qed.

Lemma scratch_files_deleted_witness :
  fst (synthesize_speech Demo.wav_encode Demo.hola (Demo.ready Demo.env_infer_fails))
  = Raise {| status_code := 500;
             detail := PyStr.lit "Error en síntesis: CUDA out of memory" |} /\
  fs (snd (synthesize_speech Demo.wav_encode Demo.hola
             (Demo.ready Demo.env_infer_fails)))
  = fs (Demo.ready Demo.env_infer_fails).
Proof.
  split; [vm_compute; reflexivity|].
  refine (proj1 (scratch_files_deleted Demo.wav_encode Demo.hola
                   (Demo.ready Demo.env_infer_fails) Demo.f5
                   eq_refl eq_refl eq_refl _ _)).
  - intros tr ev H. destruct ev; try discriminate H; reflexivity.
  - intros tr ev H. destruct ev; try discriminate H; reflexivity.
Defined.

(** The deletion of the output file is refused: the call passes validation
    and answers 200, the refusal is swallowed, and the output file stays. *)
Lemma scratch_file_remains :
  is_None (model (Demo.ready Demo.env_output_locked)) = false /\
  missing (text Demo.hola) = false /\
  missing (ref_text Demo.hola) = false /\
  fst (synthesize_speech Demo.wav_encode Demo.hola (Demo.ready Demo.env_output_locked))
  = Ret (Demo.hola_response 1) /\
  fs (Demo.ready Demo.env_output_locked) !! "1"%string = None /\
  fs (snd (synthesize_speech Demo.wav_encode Demo.hola
             (Demo.ready Demo.env_output_locked))) !! "1"%string
  = Some (Demo.wav_encode (numpy (waveform Demo.f5 Demo.hola)) 24000) /\
  fs (snd (synthesize_speech Demo.wav_encode Demo.hola
             (Demo.ready Demo.env_output_locked)))
  <> fs (Demo.ready Demo.env_output_locked).
Proof.
  repeat split; try (vm_compute; reflexivity).
  intros H.
  assert (H1 : fs (snd (synthesize_speech Demo.wav_encode Demo.hola
                          (Demo.ready Demo.env_output_locked))) !! "1"%string
               = fs (Demo.ready Demo.env_output_locked) !! "1"%string)
    by (rewrite H; reflexivity).
  vm_compute in H1. discriminate H1.
Qed.

Lemma rejection_is_atomic_witness :
  synthesize_speech Demo.wav_encode Demo.hola (boot Demo.env_ok ∅)
  = (Raise {| status_code := 503; detail := PyStr.lit "Modelo no cargado" |},
     boot Demo.env_ok ∅) /\
  boot Demo.env_ok ∅ = boot Demo.env_ok ∅.
Proof.
  split; [reflexivity|].
  apply (rejection_is_atomic Demo.wav_encode Demo.hola (boot Demo.env_ok ∅)
           (boot Demo.env_ok ∅)
           {| status_code := 503; detail := PyStr.lit "Modelo no cargado" |}).
  - reflexivity.
  - left. reflexivity.
Defined.

Lemma load_model_never_raises_witness :
  (first_import_outcome (boot Demo.env_installable ∅)
   = Some (ImportError (PyStr.lit "No module named 'f5_tts'")) /\
   install_outcome (boot Demo.env_installable ∅) = None /\
   count is_install
     (new_events (boot Demo.env_installable ∅)
        (snd (load_model (boot Demo.env_installable ∅)))) = 1 /\
   count is_import
     (new_events (boot Demo.env_installable ∅)
        (snd (load_model (boot Demo.env_installable ∅)))) = 2) /\
  (raised_at (boot Demo.env_no_weights ∅)
     (snd (load_model (boot Demo.env_no_weights ∅)))
     [EvTime 0; EvImportF5TTS] (EvConstruct cpu) []
     (OtherError (PyStr.lit "checkpoint not found")) /\
   fst (load_model (boot Demo.env_no_weights ∅)) = Ret false /\
   model (snd (load_model (boot Demo.env_no_weights ∅))) = None).
Proof.
  split.
  - split; [reflexivity|]. split; [reflexivity|].
    destruct (load_model_never_raises (boot Demo.env_installable ∅))
      as (_ & _ & H & _).
    destruct (H (PyStr.lit "No module named 'f5_tts'") eq_refl) as (H1 & H2 & _).
    split; [exact H1 | exact (H2 eq_refl)].
  - assert (Hr : raised_at (boot Demo.env_no_weights ∅)
                   (snd (load_model (boot Demo.env_no_weights ∅)))
                   [EvTime 0; EvImportF5TTS] (EvConstruct cpu) []
                   (OtherError (PyStr.lit "checkpoint not found"))).
    { split; vm_compute; reflexivity. }
    split; [exact Hr|].
    destruct (load_model_never_raises (boot Demo.env_no_weights ∅))
      as (_ & Hsame & _ & _ & _ & _ & Hall & _).
    destruct (Hall _ _ _ _ Hr eq_refl) as [(_ & H & _) | [Hf _]];
      [discriminate H|].
    split; [exact Hf | exact (Hsame Hf)].
Defined.

(** The package is missing and the installation fails: one import, one
    installation, no second import, and the loader returns [False]. *)
Lemma load_model_no_retry :
  first_import_outcome (boot Demo.env_no_package ∅)
  = Some (ImportError (PyStr.lit "No module named 'f5_tts'")) /\
  new_events (boot Demo.env_no_package ∅)
    (snd (load_model (boot Demo.env_no_package ∅)))
  = [EvTime 0; EvImportF5TTS; EvPipInstall] /\
  count is_install
    (new_events (boot Demo.env_no_package ∅)
       (snd (load_model (boot Demo.env_no_package ∅)))) = 1 /\
  count is_import
    (new_events (boot Demo.env_no_package ∅)
       (snd (load_model (boot Demo.env_no_package ∅)))) = 1 /\
  fst (load_model (boot Demo.env_no_package ∅)) = Ret false.
Proof. repeat split; vm_compute; reflexivity. Qed.

(** The scenario of the specification: "Hola mundo" on a ready service. *)
Example hola_scenario :
  fst (synthesize_speech Demo.wav_encode Demo.hola (Demo.ready Demo.env_ok))
  = Ret (Demo.hola_response 1) /\
  new_events (Demo.ready Demo.env_ok)
    (snd (synthesize_speech Demo.wav_encode Demo.hola (Demo.ready Demo.env_ok)))
  = synthesis_calls Demo.hola "0" "1" 0 1 ++ [EvUnlink "0"; EvUnlink "1"] /\
  fs (snd (synthesize_speech Demo.wav_encode Demo.hola (Demo.ready Demo.env_ok)))
  = ∅.
Proof. repeat split; vm_compute; reflexivity. Qed.

(** When the first deletion is refused, the second is not attempted. *)
Example refused_unlink_skips_the_next :
  new_events (Demo.ready Demo.env_unlink_denied)
    (snd (synthesize_speech Demo.wav_encode Demo.hola
            (Demo.ready Demo.env_unlink_denied)))
  = synthesis_calls Demo.hola "0" "1" 0 1 ++ [EvUnlink "0"].
Proof. vm_compute. reflexivity. Qed.

(** When the upload cannot be read, the handler answers 500 and the scratch
    file it had just created is still on disk: the block that stores the
    reference audio runs before the [try ... finally]. *)
Example unreadable_upload_leaves_file :
  fs (snd (synthesize_speech Demo.wav_encode Demo.hola
             (Demo.ready Demo.env_upload_fails))) !! "0"%string
  = Some [].
Proof. vm_compute. reflexivity. Qed.

(** ** Worked values *)

Section WorkedValues.
Local Open Scope N_scope.

Example lit_ascii : PyStr.lit "Hola mundo" = [72; 111; 108; 97; 32; 109; 117; 110; 100; 111].
Proof. reflexivity. Qed.

Example lit_accent : PyStr.lit "ó" = [243].
Proof. reflexivity. Qed.

Example strip_example :
  PyStr.strip ([32; 9] ++ PyStr.lit "Hola mundo" ++ [160; 10]) = PyStr.lit "Hola mundo".
Proof. reflexivity. Qed.

Example b64_man : Base64.b64encode (list_byte_of_string "Man") = list_byte_of_string "TWFu".
Proof. reflexivity. Qed.

Example b64_pad : Base64.b64encode (list_byte_of_string "Ma") = list_byte_of_string "TWE=".
Proof. reflexivity. Qed.

End WorkedValues.

(** * More on the handlers *)

(** ** More on model loading *)

(** What [load_model] leaves behind, by outcome. *)
Lemma load_model_state w :
  exists b w',
    load_model w = (Ret b, w') /\
    device w' = Some cpu /\
    (b = true ->
       model w' = Some (F5TTS_new (env w) cpu) /\
       count is_construct (new_events w w') = 1 /\
       exists t, last (log w') =
         Some {| level := INFO;
                 parts := [Text "Modelo cargado en "; Secs t; Text " segundos"] |}) /\
    (b = false ->
       model w' = model w /\
       exists tr ev err,
         faults (env w) tr ev = Some err /\
         (is_import ev || is_install ev || is_construct ev = true) /\
         last (log w') = Some (load_error_record err)).
Proof.
  destruct w as [e m v d f tk tr lg].
  unfold load_model, install_f5_tts, load_error_record.
  unfold_py. cbn.
  repeat step.
  all: eexists _, _; split; [reflexivity|]; cbn.
  all: flatten_traces.
  all: rewrite ?drop_app_length; cbn.
  all: split; [reflexivity|].
  all: split; intros Hb; try discriminate Hb.
  all: try (split; [reflexivity|]; split; [reflexivity|]; eexists; rewrite last_app; reflexivity).
  all: split; [reflexivity|].
  all: eexists _, _, _; split; [eassumption|]; split; [reflexivity | rewrite last_app; reflexivity].
Qed.

(** ** The calls of a synthesis, on every path *)

Ltac names_only_tac :=
  repeat (apply Forall_cons_2;
          [intros x Hx; cbn in Hx; try discriminate Hx; injection Hx as <-; auto|]);
  apply Forall_nil_2.

(** A look-up at a key that the updates made so far do not name. *)
Ltac other_key :=
  repeat first [rewrite lookup_delete | rewrite lookup_insert];
  repeat case_decide; subst; congruence.

Section Shape.
Variable wav_encode : list Q -> Z -> bytes.

Lemma synthesize_guarded_shape rq t p w :
  exists evs,
    trace (snd (synthesize_guarded wav_encode rq t p w)) = trace w ++ evs /\
    Forall (names_only p (fresh (dom (fs w)))) evs /\
    count is_infer evs <= 1 /\
    count is_tmp_create evs <= 1 /\
    count is_unlink evs <= 2 /\
    count is_staging evs = 0 /\
    (forall k, k <> p -> k <> fresh (dom (fs w)) ->
       fs (snd (synthesize_guarded wav_encode rq t p w)) !! k = fs w !! k).
Proof.
  destruct w as [e m v d f tk tr lg]. cbn [fs trace].
  unfold synthesize_guarded, synthesize_body, synthesize_cleanup, sf_write.
  unfold_py.
  repeat (repeat (progress (cbn; read_fs)); try step).
  all: flatten_traces.
  all: eexists; split; [first [reflexivity | symmetry; apply app_nil_r]|].
  all: split; [names_only_tac|].
  all: cbn; do 3 (split; [lia|]); split; [reflexivity|].
  all: intros k Hk1 Hk2; other_key.
Qed.

Lemma synthesize_try_shape rq w :
  exists p q evs,
    fs w !! p = None /\ fs w !! q = None /\
    trace (snd (synthesize_try wav_encode rq w)) = trace w ++ evs /\
    Forall (names_only p q) evs /\
    count is_infer evs <= 1 /\
    count is_tmp_create evs <= 2 /\
    count is_unlink evs <= 2 /\
    (forall k, k <> p -> k <> q ->
       fs (snd (synthesize_try wav_encode rq w)) !! k = fs w !! k).
Proof.
  destruct w as [e m v d f tk tr lg]. cbn [fs trace].
  pose proof (fresh_lookup f) as Hp.
  set (p := fresh (dom f)) in *.
  unfold synthesize_try. unfold_py. cbn. fold p.
  do 3 (step; fold p;
        [exists p, p; flatten_traces; eexists; do 2 (split; [exact Hp|]);
         split; [reflexivity|];
         split; [names_only_tac|]; cbn; do 3 (split; [lia|]);
         intros k Hk1 Hk2; other_key|]).
  match goal with |- context [synthesize_guarded _ _ ?t _ ?W] =>
    destruct (synthesize_guarded_shape rq t p W)
      as (evs & Htr & Hn & Hi & Hc & Hu & Hs & Hk);
    pose proof (fresh_lookup (fs W)) as Hq
  end.
  cbn [fs trace set_fs set_trace set_ticks set_log] in *.
  set (q := fresh (dom (<[p:=upload_content (ref_audio rq)]> (<[p:=[]]> f)))) in *.
  exists p, q. eexists. split; [exact Hp|].
  split; [revert Hq; rewrite !lookup_insert; repeat case_decide; congruence|].
  split; [rewrite Htr; flatten_traces; reflexivity|].
  split.
  { repeat (apply Forall_cons_2;
            [intros x Hx; cbn in Hx; try discriminate Hx; injection Hx as <-; auto|]).
    exact Hn. }
  unfold count in *. cbn. do 3 (split; [lia|]).
  intros k Hk1 Hk2. rewrite Hk by assumption. other_key.
Qed.

Lemma synthesize_speech_shape rq w :
  exists p q evs,
    fs w !! p = None /\ fs w !! q = None /\
    new_events w (snd (synthesize_speech wav_encode rq w)) = evs /\
    Forall (names_only p q) evs /\
    count is_infer evs <= 1 /\
    count is_tmp_create evs <= 2 /\
    count is_unlink evs <= 2 /\
    (forall k, k <> p -> k <> q ->
       fs (snd (synthesize_speech wav_encode rq w)) !! k = fs w !! k).
Proof.
  destruct (synthesize_try_shape rq w)
    as (p & q & evs & Hp & Hq & Htr & Hn & Hi & Hc & Hu & Hk).
  unfold synthesize_speech, try_except, logger_error, bind, get, modify, ret, raise.
  assert (Hnil : exists evs0,
            new_events w w = evs0 /\ Forall (names_only p q) evs0 /\
            count is_infer evs0 <= 1 /\ count is_tmp_create evs0 <= 2 /\
            count is_unlink evs0 <= 2 /\
            (forall k, k <> p -> k <> q -> fs w !! k = fs w !! k)).
  { exists []. unfold new_events. rewrite drop_all. cbn.
    repeat split; try lia. apply Forall_nil_2. }
  destruct Hnil as (evs0 & Hnil).
  destruct (is_None (model w)); [exists p, q, evs0; tauto|].
  destruct (missing (text rq)); [exists p, q, evs0; tauto|].
  destruct (missing (ref_text rq)); [exists p, q, evs0; tauto|].
  exists p, q, evs.
  destruct (synthesize_try wav_encode rq w) as [[r|x] w']; cbn [fst snd] in *.
  all: split; [exact Hp|]; split; [exact Hq|].
  all: split; [apply new_events_app; exact Htr|].
  all: repeat split; assumption.
Qed.

End Shape.

(** ** Deletion failures and the response *)

Section Invisible.
Variable wav_encode : list Q -> Z -> bytes.

(** The outcome of the guarded block is the outcome of its body: the
    [finally] block never replaces it. *)
Lemma synthesize_guarded_fst rq t p w :
  fst (synthesize_guarded wav_encode rq t p w)
  = fst (synthesize_body wav_encode rq t p (w, {| temp_output := None |})).
Proof.
  unfold synthesize_guarded, in_frame, try_finally.
  destruct (synthesize_body wav_encode rq t p (w, _)) as [r s].
  destruct (synthesize_cleanup_silent p s) as [s' ->]. reflexivity.
Qed.

Lemma synthesize_body_env rq t p w e' l :
  same_but_unlink (env w) e' ->
  fst (synthesize_body wav_encode rq t p (set_env e' w, l))
  = fst (synthesize_body wav_encode rq t p (w, l)).
Proof.
  destruct w as [e m v d f tk tr lg]. cbn [env]. intros [Hc Hf].
  unfold synthesize_body, sf_write, set_env. unfold_py.
  repeat (repeat (progress (cbn; rewrite ?Hf by reflexivity; rewrite ?Hc;
                            rewrite ?decode_b64encode; read_fs));
          try step).
  all: reflexivity.
Qed.

Lemma synthesize_try_env rq w e' :
  same_but_unlink (env w) e' ->
  fst (synthesize_try wav_encode rq (set_env e' w))
  = fst (synthesize_try wav_encode rq w).
Proof.
  destruct w as [e m v d f tk tr lg]. cbn [env]. intros Hsame.
  pose proof Hsame as [Hc Hf].
  unfold synthesize_try, set_env. unfold_py. cbn.
  rewrite !Hc.
  do 3 (rewrite ?Hf by reflexivity; cbn; step; [reflexivity|]).
  rewrite !synthesize_guarded_fst.
  match goal with |- _ = fst (synthesize_body _ _ ?t ?p (?W, ?l)) =>
    exact (synthesize_body_env rq t p W e' l Hsame)
  end.
Qed.

End Invisible.

(** ** Where an exception of the synthesis comes from *)

(** The call that raised, among the answers collected so far. *)
Ltac find_cause :=
  match goal with
  | H : faults _ (_ ++ ?pre) ?ev = Some ?x
    |- exists _ _ _, _ /\ _ /\ _ /\ faults _ _ _ = Some ?x =>
    exists pre, ev; eexists;
    split; [reflexivity|]; split; [reflexivity|]; split; [reflexivity | exact H]
  | H : faults _ ?tr ?ev = Some ?x
    |- exists _ _ _, _ /\ _ /\ _ /\ faults _ _ _ = Some ?x =>
    exists [], ev; eexists;
    split; [reflexivity|]; split; [reflexivity|]; split;
    [reflexivity | rewrite app_nil_r; exact H]
  end.

Section Causes.
Variable wav_encode : list Q -> Z -> bytes.

(** An exception of the guarded block is the answer of the environment to
    the last call of its body; only deletions follow. *)
Lemma synthesize_guarded_cause rq t p c m w err w' :
  model w = Some m ->
  fs w !! p = Some c ->
  synthesize_guarded wav_encode rq t p w = (Raise err, w') ->
  exists pre ev post,
    trace w' = trace w ++ pre ++ ev :: post /\
    is_unlink ev = false /\
    forallb is_unlink post = true /\
    faults (env w) (trace w ++ pre) ev = Some err.
Proof.
  destruct w as [e m0 v d f tk tr lg]. cbn [env fs model trace]. intros -> Hp.
  pose proof (fresh_lookup f) as Hq.
  assert (Hne : fresh (dom f) <> p) by congruence.
  unfold synthesize_guarded, synthesize_body, synthesize_cleanup, sf_write.
  unfold_py.
  repeat (repeat (progress (cbn; rewrite ?decode_b64encode; read_fs));
          try step; try discriminate).
  all: intros H; injection H as <- <-; cbn.
  all: flatten_traces.
  all: find_cause.
Qed.

Lemma synthesize_try_cause rq m w err w' :
  model w = Some m ->
  synthesize_try wav_encode rq w = (Raise err, w') ->
  exists pre ev post,
    trace w' = trace w ++ pre ++ ev :: post /\
    is_unlink ev = false /\
    forallb is_unlink post = true /\
    faults (env w) (trace w ++ pre) ev = Some err.
Proof.
  destruct w as [e m0 v d f tk tr lg]. cbn [env fs model trace]. intros ->.
  unfold synthesize_try. unfold_py. cbn.
  do 3 (step; [intros H; injection H as <- <-; cbn; flatten_traces; find_cause|]).
  intros H.
  eapply synthesize_guarded_cause in H; [|reflexivity|apply lookup_insert_eq].
  destruct H as (pre & ev & post & Htr & Hev & Hpost & Hf).
  cbn [env trace set_fs set_trace set_ticks set_log] in *.
  flatten_traces.
  eexists (_ :: _ :: _ :: _ :: pre), ev, post.
  split; [rewrite Htr; flatten_traces; reflexivity|].
  split; [exact Hev|]. split; [exact Hpost|].
  flatten_traces. exact Hf.
Qed.

End Causes.

(** * Further properties of the handlers *)

Section SynthesisExtras.
Variable wav_encode : list Q -> Z -> bytes.

(** Past the three guards, [synthesize_speech] is its [try] block with the
    [except] clause of lines 197-199 applied to what the block raises. *)
Lemma synthesize_speech_valid rq w m :
  model w = Some m ->
  missing (text rq) = false ->
  missing (ref_text rq) = false ->
  synthesize_speech wav_encode rq w
  = match synthesize_try wav_encode rq w with
    | (Ret r, w') => (Ret r, w')
    | (Raise err, w') =>
      (Raise {| status_code := 500;
                detail := PyStr.lit "Error en síntesis: " ++ exc_str err |},
       set_log (log w' ++ [synthesis_error_record err]) w')
    end.
Proof.
  intros Hm Ht Hr.
  unfold synthesize_speech, try_except, logger_error, bind, get, modify, ret, raise.
  rewrite Hm, Ht, Hr. cbn.
  destruct (synthesize_try wav_encode rq w) as [[r|err] w']; reflexivity.
Qed.

(** X1: the two rejections of [synthesize_speech] have exact conditions:
    the answer is 503 exactly when the model handle is unset, and 400
    exactly when the handle is set and [text] or [ref_text] is blank. *)
Theorem synthesize_status_cases (rq : SynthRequest) (w : World) :
  (http_status (fst (synthesize_speech wav_encode rq w)) = 503%Z <-> model w = None) /\
  (http_status (fst (synthesize_speech wav_encode rq w)) = 400%Z <->
   model w <> None /\
   (PyStr.blank (text rq) = true \/ PyStr.blank (ref_text rq) = true)).
Proof.
  destruct (model w) as [m|] eqn:Hm.
  2: { assert (H : fst (synthesize_speech wav_encode rq w)
                   = Raise {| status_code := 503;
                              detail := PyStr.lit "Modelo no cargado" |}).
       { unfold synthesize_speech, bind, get. rewrite Hm. reflexivity. }
       rewrite H. cbn [http_status status_code].
       intuition (try congruence; try lia). }
  destruct (missing (text rq)) eqn:Ht.
  { assert (H : http_status (fst (synthesize_speech wav_encode rq w)) = 400%Z).
    { unfold synthesize_speech, bind, get. rewrite Hm, Ht. reflexivity. }
    rewrite H. unfold missing in Ht. rewrite missing_iff_blank in Ht.
    intuition (try congruence; try lia). }
  destruct (missing (ref_text rq)) eqn:Hr.
  { assert (H : http_status (fst (synthesize_speech wav_encode rq w)) = 400%Z).
    { unfold synthesize_speech, bind, get. rewrite Hm, Ht, Hr. reflexivity. }
    rewrite H. unfold missing in Hr. rewrite missing_iff_blank in Hr.
    intuition (try congruence; try lia). }
  rewrite (synthesize_speech_valid rq w m Hm Ht Hr).
  unfold missing in Ht, Hr. rewrite missing_iff_blank in Ht, Hr.
  destruct (synthesize_try wav_encode rq w) as [[r|err] w'];
    cbn [fst http_status status_code];
    intuition (try congruence; try lia).
Qed.

(** X2: a 500 answer of [synthesize_speech] reports the exception that its
    [try] block raised.  That exception is the answer of the environment to
    the last call made before the clean-up (only deletions follow it); its
    text is the detail of the answer, after the fixed prefix, and the last
    record of the log, at level ERROR. *)
Theorem synthesis_failure_is_logged (rq : SynthRequest) (w w' : World)
    (x : HTTPException) :
  synthesize_speech wav_encode rq w = (Raise x, w') ->
  status_code x = 500%Z ->
  exists err pre ev post,
    fst (synthesize_try wav_encode rq w) = Raise err /\
    new_events w w' = pre ++ ev :: post /\
    is_unlink ev = false /\
    forallb is_unlink post = true /\
    faults (env w) (trace w ++ pre) ev = Some err /\
    detail x = PyStr.lit "Error en síntesis: " ++ exc_str err /\
    last (log w') = Some (synthesis_error_record err).
Proof.
  unfold synthesize_speech, try_except, logger_error, bind, get, modify, ret, raise.
  destruct (model w) as [m|] eqn:Hm; cbn [is_None].
  2: { intros [= <- _] H. discriminate H. }
  destruct (missing (text rq)).
  { intros [= <- _] H. discriminate H. }
  destruct (missing (ref_text rq)).
  { intros [= <- _] H. discriminate H. }
  destruct (synthesize_try wav_encode rq w) as [[r|err] w0] eqn:Htry; [discriminate|].
  intros [= <- <-] _.
  destruct (synthesize_try_cause wav_encode rq m w err w0 Hm Htry)
    as (pre & ev & post & Htr & Hev & Hpost & Hf).
  exists err, pre, ev, post.
  split; [reflexivity|].
  split; [apply new_events_app; exact Htr|].
  split; [exact Hev|]. split; [exact Hpost|]. split; [exact Hf|].
  split; [reflexivity|]. apply last_snoc.
Qed.

(** X3: whatever fails, [synthesize_speech] leaves every file that was on
    disk before the call as it was. *)
Theorem existing_files_untouched (rq : SynthRequest) (w : World) (k : path)
    (b : bytes) :
  fs w !! k = Some b ->
  fs (snd (synthesize_speech wav_encode rq w)) !! k = Some b.
Proof.
  intros Hk.
  destruct (synthesize_speech_shape wav_encode rq w)
    as (p & q & evs & Hp & Hq & _ & _ & _ & _ & _ & Hfs).
  rewrite Hfs; [exact Hk | congruence | congruence].
Qed.

(** X4: every file that a call of [synthesize_speech] creates, writes,
    reads, hands to the model or deletes is one that did not exist before
    the call. *)
Theorem only_new_files_named (rq : SynthRequest) (w : World) (ev : Event)
    (x : path) :
  In ev (new_events w (snd (synthesize_speech wav_encode rq w))) ->
  event_path ev = Some x ->
  fs w !! x = None.
Proof.
  intros Hin Hx.
  destruct (synthesize_speech_shape wav_encode rq w)
    as (p & q & evs & Hp & Hq & Hev & Hn & _).
  rewrite Hev in Hin. rewrite Forall_forall in Hn.
  apply list_elem_of_In in Hin.
  destruct (Hn ev Hin x Hx) as [-> | ->]; assumption.
Qed.

(** X5: nothing is retried: on every path a call of [synthesize_speech]
    calls the model at most once, creates at most two scratch files and
    attempts at most two deletions. *)
Theorem synthesis_never_retries (rq : SynthRequest) (w : World) :
  count is_infer (new_events w (snd (synthesize_speech wav_encode rq w))) <= 1 /\
  count is_tmp_create (new_events w (snd (synthesize_speech wav_encode rq w))) <= 2 /\
  count is_unlink (new_events w (snd (synthesize_speech wav_encode rq w))) <= 2.
Proof.
  destruct (synthesize_speech_shape wav_encode rq w)
    as (p & q & evs & _ & _ & -> & _ & Hi & Hc & Hu & _).
  repeat split; assumption.
Qed.

(** X6: the answer of [synthesize_speech] does not depend on what happens
    to the deletions: in two environments that differ only in the answers to
    [os.unlink], the same request gets the same response or the same
    error. *)
Theorem unlink_failures_are_invisible (rq : SynthRequest) (w : World) (e' : Env) :
  same_but_unlink (env w) e' ->
  fst (synthesize_speech wav_encode rq (set_env e' w))
  = fst (synthesize_speech wav_encode rq w).
Proof.
  intros Hsame. pose proof (synthesize_try_env wav_encode rq w e' Hsame) as H.
  unfold synthesize_speech, try_except, logger_error, bind, get, modify, ret, raise.
  cbn [set_env model].
  destruct (is_None (model w)); [reflexivity|].
  destruct (missing (text rq)); [reflexivity|].
  destruct (missing (ref_text rq)); [reflexivity|].
  destruct (synthesize_try wav_encode rq (set_env e' w)) as [[r1|x1] w1],
           (synthesize_try wav_encode rq w) as [[r2|x2] w2];
    cbn in *; congruence.
Qed.

(** X7: when the model raises, the call answers 500 with the model's
    message; the output file is never created, and the one deletion that is
    attempted is that of the reference-audio file. *)
Theorem inference_failure_path (rq : SynthRequest) (w : World) (m : F5TTS)
    (err : PyError) :
  model w = Some m ->
  missing (text rq) = false ->
  missing (ref_text rq) = false ->
  never_fails (env w) is_tmp_create ->
  never_fails (env w) is_staging ->
  always_raises (env w) is_infer err ->
  fst (synthesize_speech wav_encode rq w)
  = Raise {| status_code := 500;
             detail := PyStr.lit "Error en síntesis: " ++ exc_str err |} /\
  new_events w (snd (synthesize_speech wav_encode rq w))
  = [EvTime (clock (env w) (ticks w));
     EvTmpCreate (fresh (dom (fs w))); EvUploadRead;
     EvFileWrite (fresh (dom (fs w)));
     EvInfer (fresh (dom (fs w))) (ref_text rq) (text rq) (speed rq)
             (remove_silence rq);
     EvUnlink (fresh (dom (fs w)))].
Proof.
  intros Hm Ht Hr Hc Hs Hi.
  rewrite (synthesize_speech_valid rq w m Hm Ht Hr).
  destruct w as [e m0 v d f tk tr lg]. cbn [env model fs ticks] in *. subst m0.
  unfold never_fails, always_raises in *.
  unfold synthesize_try, synthesize_guarded, synthesize_body, synthesize_cleanup,
    sf_write, new_events.
  unfold_py.
  repeat (repeat (progress (cbn; rewrite ?Hc by reflexivity;
                            rewrite ?Hs by reflexivity;
                            rewrite ?Hi by reflexivity; read_fs));
          try step).
  all: flatten_traces; rewrite drop_app_length; split; reflexivity.
Qed.

(** X8: when reading the upload raises an [Exception] (the class that the
    clause of line 197 catches, and the only one that [PyError] holds), the
    call answers 500 with the text of that exception, makes no deletion,
    and the scratch file it has just created, still empty, stays on
    disk. *)
Theorem upload_failure_path (rq : SynthRequest) (w : World) (m : F5TTS)
    (err : PyError) :
  model w = Some m ->
  missing (text rq) = false ->
  missing (ref_text rq) = false ->
  never_fails (env w) is_tmp_create ->
  always_raises (env w) is_upload_read err ->
  fst (synthesize_speech wav_encode rq w)
  = Raise {| status_code := 500;
             detail := PyStr.lit "Error en síntesis: " ++ exc_str err |} /\
  new_events w (snd (synthesize_speech wav_encode rq w))
  = [EvTime (clock (env w) (ticks w)); EvTmpCreate (fresh (dom (fs w)));
     EvUploadRead] /\
  fs w !! fresh (dom (fs w)) = None /\
  fs (snd (synthesize_speech wav_encode rq w))
  = <[fresh (dom (fs w)) := []]> (fs w).
Proof.
  intros Hm Ht Hr Hc Hu.
  rewrite (synthesize_speech_valid rq w m Hm Ht Hr).
  destruct w as [e m0 v d f tk tr lg]. cbn [env model fs ticks] in *. subst m0.
  unfold never_fails, always_raises in *.
  unfold synthesize_try, new_events. unfold_py. cbn.
  rewrite Hc by reflexivity. cbn. rewrite Hu by reflexivity. cbn.
  flatten_traces. rewrite drop_app_length.
  repeat split. apply fresh_lookup.
Qed.

End SynthesisExtras.

(** ** Loading, start-up and the status handlers *)

(** X9: [load_model] runs the installation exactly when the first import
    raises [ImportError]: not when the import succeeds, and not when it
    fails in another way. *)
Theorem install_only_on_import_error (w : World) :
  count is_install (new_events w (snd (load_model w)))
  = match first_import_outcome w with
    | Some (ImportError _) => 1
    | _ => 0
    end.
Proof.
  destruct (load_model_spec w)
    as (b & w' & Heq & _ & _ & _ & _ & _ & _ & _ & _ & Himp & Hother).
  rewrite Heq. cbn [snd].
  destruct (first_import_outcome w) as [[msg|msg]|] eqn:H.
  - apply (Himp msg). reflexivity.
  - apply Hother. intros msg'. discriminate.
  - apply Hother. intros msg'. discriminate.
Qed.


(** X11: when [load_model] returns [True], [model] is the handle that the
    constructor returned for the CPU, [device] is the CPU, and the
    constructor was called exactly once. *)
Theorem load_success_state (w : World) :
  fst (load_model w) = Ret true ->
  model (snd (load_model w)) = Some (F5TTS_new (env w) cpu) /\
  device (snd (load_model w)) = Some cpu /\
  count is_construct (new_events w (snd (load_model w))) = 1.
Proof.
  destruct (load_model_state w) as (b & w' & Heq & Hd & Ht & _).
  rewrite Heq. cbn [fst snd]. intros [= ->].
  destruct (Ht eq_refl) as (Hm & Hc & _).
  repeat split; assumption.
Qed.

(** How [startup_event] ends. *)
Lemma startup_event_outcome w :
  fst (startup_event w) = Ret tt /\
  device (snd (startup_event w)) = Some cpu /\
  ((model (snd (startup_event w)) = Some (F5TTS_new (env w) cpu) /\
    last (log (snd (startup_event w))) = Some startup_ok_record) \/
   (model (snd (startup_event w)) = model w /\
    last (log (snd (startup_event w))) = Some startup_failed_record)).
Proof.
  unfold startup_event, bind, logger_info, logger_error, modify.
  match goal with |- context [load_model ?w0] =>
    destruct (load_model_state w0) as (b & w' & Heq & Hd & Ht & Hf)
  end.
  rewrite Heq. destruct b; cbn.
  - destruct (Ht eq_refl) as (Hm & _).
    repeat split; try assumption. left. split; [exact Hm | apply last_snoc].
  - destruct (Hf eq_refl) as (Hm & _).
    repeat split; try assumption. right. split; [exact Hm | apply last_snoc].
Qed.

(** X12: [startup_event] never raises, whatever the load does: the process
    starts either with the model loaded and "API lista para usar" as the
    last log record, or with [model] as it was and the ERROR record "No se
    pudo cargar el modelo"; in both cases [device] is the CPU. *)
Theorem startup_never_raises (w : World) :
  fst (startup_event w) = Ret tt /\
  device (snd (startup_event w)) = Some cpu /\
  ((model (snd (startup_event w)) = Some (F5TTS_new (env w) cpu) /\
    last (log (snd (startup_event w))) = Some startup_ok_record) \/
   (model (snd (startup_event w)) = model w /\
    last (log (snd (startup_event w))) = Some startup_failed_record)).
Proof. apply startup_event_outcome. Qed.

(** X13: after start-up, [root] reports the device "cpu" whether or not
    the model was loaded, and changes nothing; "No disponible" is what it
    reports in a process whose start-up has not run. *)
Theorem root_after_startup (e : Env) (disk : gmap path bytes) :
  root (snd (startup_event (boot e disk)))
  = (Ret {| RootR.message := PyStr.lit "F5-Spanish TTS API funcionando";
            RootR.model_loaded :=
              negb (is_None (model (snd (startup_event (boot e disk)))));
            RootR.device := PyStr.lit "cpu" |},
     snd (startup_event (boot e disk))) /\
  root (boot e disk)
  = (Ret {| RootR.message := PyStr.lit "F5-Spanish TTS API funcionando";
            RootR.model_loaded := false;
            RootR.device := PyStr.lit "No disponible" |},
     boot e disk).
Proof.
  destruct (startup_event_outcome (boot e disk)) as (_ & Hd & _).
  split; [|reflexivity].
  unfold root, bind, get, ret. rewrite Hd. reflexivity.
Qed.

(** X14: after the start-up of a fresh process, [health_check] answers
    "healthy" with the current clock reading, and its [model_ready] flag is
    true exactly when start-up ended with "API lista para usar"; its only
    call is that clock reading, and it touches neither the files nor the
    log. *)
Theorem health_reflects_startup (e : Env) (disk : gmap path bytes) :
  fst (health_check (snd (startup_event (boot e disk))))
  = Ret {| HealthR.status := PyStr.lit "healthy";
           HealthR.model_ready :=
             negb (is_None (model (snd (startup_event (boot e disk)))));
           HealthR.timestamp :=
             clock (env (snd (startup_event (boot e disk))))
                   (ticks (snd (startup_event (boot e disk)))) |} /\
  (negb (is_None (model (snd (startup_event (boot e disk))))) = true <->
   last (log (snd (startup_event (boot e disk)))) = Some startup_ok_record) /\
  new_events (snd (startup_event (boot e disk)))
    (snd (health_check (snd (startup_event (boot e disk)))))
  = [EvTime (clock (env (snd (startup_event (boot e disk))))
                   (ticks (snd (startup_event (boot e disk)))))] /\
  fs (snd (health_check (snd (startup_event (boot e disk)))))
  = fs (snd (startup_event (boot e disk))) /\
  log (snd (health_check (snd (startup_event (boot e disk)))))
  = log (snd (startup_event (boot e disk))).
Proof.
  destruct (startup_event_outcome (boot e disk)) as (_ & _ & Hm).
  set (w1 := snd (startup_event (boot e disk))) in *.
  split; [reflexivity|]. split.
  - destruct Hm as [[Hm Hl] | [Hm Hl]]; rewrite Hm, Hl; cbn; split;
      intros H; try reflexivity; discriminate H.
  - unfold health_check, time_time, new_events, bind, get, ret. cbn.
    rewrite drop_app_length. repeat split.
Qed.

Section LifetimeExtras.
Variable wav_encode : list Q -> Z -> bytes.

Lemma synthesize_503_iff rq w :
  http_status (fst (synthesize_speech wav_encode rq w)) = 503%Z <-> model w = None.
Proof.
  unfold synthesize_speech, try_except, logger_error, bind, get, modify, ret, raise.
  destruct (model w) as [m|]; cbn [is_None].
  2: { cbn. split; reflexivity. }
  destruct (missing (text rq)); [cbn; split; discriminate|].
  destruct (missing (ref_text rq)); [cbn; split; discriminate|].
  destruct (synthesize_try wav_encode rq w) as [[r|x] w']; cbn; split; discriminate.
Qed.

(** X15: in a process started from scratch, a synthesis request is answered
    503, however many requests were served before it, exactly when start-up
    ended with the record "No se pudo cargar el modelo". *)
Theorem unavailable_iff_startup_failed (e : Env) (disk : gmap path bytes)
    (rs : list Request) (rq : SynthRequest) :
  http_status
    (fst (synthesize_speech wav_encode rq
            (serve wav_encode rs (snd (startup_event (boot e disk))))))
  = 503%Z
  <-> last (log (snd (startup_event (boot e disk)))) = Some startup_failed_record.
Proof.
  rewrite synthesize_503_iff.
  destruct (serve_globals wav_encode rs (snd (startup_event (boot e disk))))
    as (-> & _).
  destruct (startup_event_outcome (boot e disk)) as (_ & _ & Hm).
  destruct Hm as [[Hm Hl] | [Hm Hl]]; rewrite Hm, Hl; cbn; split;
    intros H; try reflexivity; discriminate H.
Qed.

(** The guards of a blank request leave the world as it was, with or
    without a model. *)
Lemma blank_request_world rq w :
  PyStr.blank (text rq) = true \/ PyStr.blank (ref_text rq) = true ->
  snd (synthesize_speech wav_encode rq w) = w.
Proof.
  intros Hb.
  unfold synthesize_speech, bind, get, ret, raise, missing.
  rewrite !missing_iff_blank.
  destruct (is_None (model w)); [reflexivity|].
  destruct (PyStr.blank (text rq)); [reflexivity|].
  destruct Hb as [Hb|Hb]; [discriminate|]. rewrite Hb. reflexivity.
Qed.

(** X16: a synthesis request with a blank [text] or [ref_text] is a no-op
    for the service: taking it out of a sequence of requests changes nothing
    in the world that the sequence leaves. *)
Theorem blank_request_is_a_no_op (rs1 rs2 : list Request) (rq : SynthRequest)
    (w : World) :
  PyStr.blank (text rq) = true \/ PyStr.blank (ref_text rq) = true ->
  serve wav_encode (rs1 ++ POST_synthesize rq :: rs2) w
  = serve wav_encode (rs1 ++ rs2) w.
Proof.
  intros Hb. unfold serve. rewrite !fold_left_app. cbn [fold_left].
  f_equal. cbn [route]. unfold bind at 1.
  pose proof (blank_request_world rq (fold_left (fun w r => snd (route wav_encode r w)) rs1 w) Hb) as H.
  destruct (synthesize_speech wav_encode rq _) as [[r|x] w']; cbn in *; exact H.
Qed.

End LifetimeExtras.

(** ** The payload *)

Lemma b64encode_length : forall l,
  length (Base64.b64encode l) = 4 * ((length l + 2) / 3).
Proof.
  fix IH 1. intros [|a [|b [|c rest]]]; try reflexivity.
  cbn [Base64.b64encode length]. rewrite IH.
  replace (S (S (S (length rest))) + 2) with ((length rest + 2) + 1 * 3) by lia.
  rewrite Nat.div_add by lia. lia.
Qed.

Section PayloadExtras.
Variable wav_encode : list Q -> Z -> bytes.

(** X17: the payload of a response is plain ASCII, and its length is four
    characters for every three octets of the encoded WAV file, rounded up:
    always a multiple of four. *)
Theorem payload_is_padded_ascii (rq : SynthRequest) (w : World) (r : SynthR.t) :
  fst (synthesize_speech wav_encode rq w) = Ret r ->
  exists m,
    model w = Some m /\
    length (SynthR.audio_base64 r)
    = 4 * ((length (wav_encode (numpy (waveform m rq)) 24000) + 2) / 3) /\
    Forall (fun c => (c < 128)%N) (SynthR.audio_base64 r).
Proof.
  intros H. apply run_eq, synthesize_speech_ret in H.
  destruct H as (_ & _ & _ & H).
  apply synthesize_try_success in H.
  destruct H as (m & p & q & tail & Hm & -> & _).
  exists m. cbn [SynthR.audio_base64]. split; [exact Hm|]. split.
  - rewrite length_map. apply b64encode_length.
  - apply Forall_fmap. exact (b64encode_ascii _).
Qed.

End PayloadExtras.

(** ** The further properties at concrete worlds *)

Ltac pick_member := repeat first [left; reflexivity | right].

Lemma synthesis_failure_is_logged_witness :
  exists err pre ev post,
    fst (synthesize_try Demo.wav_encode Demo.hola (Demo.ready Demo.env_infer_fails))
    = Raise err /\
    new_events (Demo.ready Demo.env_infer_fails)
      (snd (synthesize_speech Demo.wav_encode Demo.hola
              (Demo.ready Demo.env_infer_fails)))
    = pre ++ ev :: post /\
    is_unlink ev = false /\
    forallb is_unlink post = true /\
    faults (env (Demo.ready Demo.env_infer_fails))
           (trace (Demo.ready Demo.env_infer_fails) ++ pre) ev = Some err /\
    PyStr.lit "Error en síntesis: CUDA out of memory"
    = PyStr.lit "Error en síntesis: " ++ exc_str err /\
    last (log (snd (synthesize_speech Demo.wav_encode Demo.hola
                      (Demo.ready Demo.env_infer_fails))))
    = Some (synthesis_error_record err).
Proof.
  apply (synthesis_failure_is_logged Demo.wav_encode Demo.hola
           (Demo.ready Demo.env_infer_fails)
           (snd (synthesize_speech Demo.wav_encode Demo.hola
                   (Demo.ready Demo.env_infer_fails)))
           {| status_code := 500;
              detail := PyStr.lit "Error en síntesis: CUDA out of memory" |}).
  - vm_compute. reflexivity.
  - reflexivity.
Defined.

Lemma existing_files_untouched_witness :
  fs (set_fs {["keep.wav"%string := list_byte_of_string "RIFF"]}
        (Demo.ready Demo.env_unlink_denied)) !! "keep.wav"%string
  = Some (list_byte_of_string "RIFF") /\
  fs (snd (synthesize_speech Demo.wav_encode Demo.hola
             (set_fs {["keep.wav"%string := list_byte_of_string "RIFF"]}
                (Demo.ready Demo.env_unlink_denied)))) !! "keep.wav"%string
  = Some (list_byte_of_string "RIFF").
Proof.
  split; [vm_compute; reflexivity|].
  apply (existing_files_untouched Demo.wav_encode Demo.hola
           (set_fs {["keep.wav"%string := list_byte_of_string "RIFF"]}
              (Demo.ready Demo.env_unlink_denied))
           "keep.wav"%string (list_byte_of_string "RIFF")).
  vm_compute. reflexivity.
Defined.

Lemma only_new_files_named_witness :
  In (EvUnlink "0")
     (new_events (Demo.ready Demo.env_ok)
        (snd (synthesize_speech Demo.wav_encode Demo.hola (Demo.ready Demo.env_ok)))) /\
  fs (Demo.ready Demo.env_ok) !! "0"%string = None.
Proof.
  assert (H : In (EvUnlink "0")
     (new_events (Demo.ready Demo.env_ok)
        (snd (synthesize_speech Demo.wav_encode Demo.hola (Demo.ready Demo.env_ok))))).
  { vm_compute. pick_member. }
  split; [exact H|].
  exact (only_new_files_named Demo.wav_encode Demo.hola (Demo.ready Demo.env_ok)
           (EvUnlink "0") "0"%string H eq_refl).
Defined.

Lemma unlink_failures_are_invisible_witness :
  same_but_unlink (env (Demo.ready Demo.env_ok)) Demo.env_unlink_denied /\
  fst (synthesize_speech Demo.wav_encode Demo.hola
         (set_env Demo.env_unlink_denied (Demo.ready Demo.env_ok)))
  = fst (synthesize_speech Demo.wav_encode Demo.hola (Demo.ready Demo.env_ok)).
Proof.
  assert (H : same_but_unlink (env (Demo.ready Demo.env_ok)) Demo.env_unlink_denied).
  { split; [reflexivity|]. intros tr ev Hev. cbn. rewrite Hev. reflexivity. }
  split; [exact H|].
  exact (unlink_failures_are_invisible Demo.wav_encode Demo.hola
           (Demo.ready Demo.env_ok) Demo.env_unlink_denied H).
Defined.

Lemma inference_failure_path_witness :
  fst (synthesize_speech Demo.wav_encode Demo.hola (Demo.ready Demo.env_infer_fails))
  = Raise {| status_code := 500;
             detail := PyStr.lit "Error en síntesis: "
                       ++ exc_str (OtherError (PyStr.lit "CUDA out of memory")) |}.
Proof.
  refine (proj1 (inference_failure_path Demo.wav_encode Demo.hola
                   (Demo.ready Demo.env_infer_fails) Demo.f5
                   (OtherError (PyStr.lit "CUDA out of memory"))
                   eq_refl eq_refl eq_refl _ _ _)).
  - intros tr ev H. destruct ev; try discriminate H; reflexivity.
  - intros tr ev H. destruct ev; try discriminate H; reflexivity.
  - intros tr ev H. destruct ev; try discriminate H; reflexivity.
Defined.

Lemma upload_failure_path_witness :
  fst (synthesize_speech Demo.wav_encode Demo.hola (Demo.ready Demo.env_upload_fails))
  = Raise {| status_code := 500;
             detail := PyStr.lit "Error en síntesis: "
                       ++ exc_str (OtherError (PyStr.lit "client disconnected")) |}.
Proof.
  refine (proj1 (upload_failure_path Demo.wav_encode Demo.hola
                   (Demo.ready Demo.env_upload_fails) Demo.f5
                   (OtherError (PyStr.lit "client disconnected"))
                   eq_refl eq_refl eq_refl _ _)).
  - intros tr ev H. destruct ev; try discriminate H; reflexivity.
  - intros tr ev H. destruct ev; try discriminate H; reflexivity.
Defined.


Lemma load_success_state_witness :
  fst (load_model (boot Demo.env_ok ∅)) = Ret true /\
  model (snd (load_model (boot Demo.env_ok ∅)))
  = Some (F5TTS_new (env (boot Demo.env_ok ∅)) cpu).
Proof.
  assert (H : fst (load_model (boot Demo.env_ok ∅)) = Ret true)
    by (vm_compute; reflexivity).
  split; [exact H|].
  exact (proj1 (load_success_state (boot Demo.env_ok ∅) H)).
Defined.

Lemma blank_request_is_a_no_op_witness :
  PyStr.blank (text Demo.no_text) = true /\
  serve Demo.wav_encode ([GET_health] ++ POST_synthesize Demo.no_text :: [GET_root])
        (Demo.ready Demo.env_ok)
  = serve Demo.wav_encode ([GET_health] ++ [GET_root]) (Demo.ready Demo.env_ok).
Proof.
  split; [reflexivity|].
  apply (blank_request_is_a_no_op Demo.wav_encode [GET_health] [GET_root]
           Demo.no_text (Demo.ready Demo.env_ok)).
  left. reflexivity.
Defined.

Lemma payload_is_padded_ascii_witness :
  fst (synthesize_speech Demo.wav_encode Demo.hola (Demo.ready Demo.env_ok))
  = Ret (Demo.hola_response 1) /\
  exists m,
    model (Demo.ready Demo.env_ok) = Some m /\
    length (SynthR.audio_base64 (Demo.hola_response 1))
    = 4 * ((length (Demo.wav_encode (numpy (waveform m Demo.hola)) 24000) + 2) / 3) /\
    Forall (fun c => (c < 128)%N) (SynthR.audio_base64 (Demo.hola_response 1)).
Proof.
  assert (H : fst (synthesize_speech Demo.wav_encode Demo.hola (Demo.ready Demo.env_ok))
              = Ret (Demo.hola_response 1)) by (vm_compute; reflexivity).
  split; [exact H|].
  exact (payload_is_padded_ascii Demo.wav_encode Demo.hola (Demo.ready Demo.env_ok)
           (Demo.hola_response 1) H).
Defined.
